(** * AI_Researcher: the document pipeline of [main.py]

    A shallow embedding of [main.py]: the two emission passes of
    [create_documents], the filename derivation, the research fallback, the
    three workflow nodes, [create_research_paper], [edit_paper] and the
    revision loop of [main].

    Python strings are sequences of Unicode code points; a string is a
    [list N] here.  External services (search, language model, file system,
    clock, console) are fields of a [Runtime] record acting on an abstract
    [World]; every call is recorded in an event log. *)

From Stdlib Require Import NArith Arith Bool String Ascii Lia Decimal List.
Import ListNotations.

Set Implicit Arguments.

(** ** Python strings *)

Module Py.

Definition char := N.
Definition str := list char.

(** ASCII literal to code points. *)
Definition u (s : string) : str := map N_of_ascii (list_ascii_of_string s).

Definition nl : char := 10%N.
Definition space : char := 32%N.
Definition hash : char := 35%N.
Definition hyphen : char := 45%N.
Definition dot : char := 46%N.
Definition slash : char := 47%N.
Definition underscore : char := 95%N.
Definition dquote : char := 34%N.

Definition str_eqb (a b : str) : bool :=
  if list_eq_dec N.eq_dec a b then true else false.

Definition nonempty (s : str) : bool :=
  match s with [] => false | _ :: _ => true end.

(** [str.isspace] on one code point: the white space table of CPython. *)
Definition isspace (c : char) : bool :=
  ((9 <=? c) && (c <=? 13) || (28 <=? c) && (c <=? 32)
   || (c =? 133) || (c =? 160) || (c =? 5760)
   || (8192 <=? c) && (c <=? 8202)
   || (c =? 8232) || (c =? 8233) || (c =? 8239) || (c =? 8287)
   || (c =? 12288))%N.

Fixpoint lstrip (s : str) : str :=
  match s with
  | [] => []
  | c :: s' => if isspace c then lstrip s' else s
  end.

Definition rstrip (s : str) : str := rev (lstrip (rev s)).

(** [s.strip()] *)
Definition strip (s : str) : str := rstrip (lstrip s).

(** [s.startswith(p)] *)
Fixpoint startswith (p s : str) : bool :=
  match p, s with
  | [], _ => true
  | _ :: _, [] => false
  | a :: p', b :: s' => (a =? b)%N && startswith p' s'
  end.

(** [s.endswith(p)] *)
Definition endswith (p s : str) : bool := startswith (rev p) (rev s).

(** [s.split('\n')]: never the empty list. *)
Fixpoint split_nl (s : str) : list str :=
  match s with
  | [] => [[]]
  | c :: s' =>
      if (c =? nl)%N then [] :: split_nl s'
      else match split_nl s' with
           | l :: ls => (c :: l) :: ls
           | [] => [[c]]
           end
  end.

(** ['\n'.join(ls)] *)
Fixpoint join_nl (ls : list str) : str :=
  match ls with
  | [] => []
  | [l] => l
  | l :: ls' => l ++ nl :: join_nl ls'
  end.

(** [s.replace(old, new)] for a non-empty [old]: leftmost occurrences,
    not overlapping.  [skip] counts the characters of an occurrence that
    are still to be passed over. *)
Fixpoint replace_from (old new : str) (skip : nat) (s : str) : str :=
  match s with
  | [] => []
  | c :: s' =>
      match skip with
      | S k => replace_from old new k s'
      | O =>
          if startswith old s
          then new ++ replace_from old new (List.length old - 1) s'
          else c :: replace_from old new 0 s'
      end
  end.

Definition replace (old new s : str) : str := replace_from old new 0 s.

(** [needle in s] *)
Fixpoint contains (needle s : str) : bool :=
  startswith needle s ||
  match s with
  | [] => false
  | _ :: s' => contains needle s'
  end.

(** [str(n)] for a natural number. *)
Fixpoint uint_str (d : Decimal.uint) : str :=
  match d with
  | Nil => []
  | D0 d => 48%N :: uint_str d
  | D1 d => 49%N :: uint_str d
  | D2 d => 50%N :: uint_str d
  | D3 d => 51%N :: uint_str d
  | D4 d => 52%N :: uint_str d
  | D5 d => 53%N :: uint_str d
  | D6 d => 54%N :: uint_str d
  | D7 d => 55%N :: uint_str d
  | D8 d => 56%N :: uint_str d
  | D9 d => 57%N :: uint_str d
  end.

Definition str_of_nat (n : nat) : str := uint_str (Nat.to_uint n).

(** Zero padding to [width] digits, as [%02d]. *)
Definition zfill (width : nat) (s : str) : str :=
  repeat 48%N (width - List.length s) ++ s.

(** [os.path.join(a, b)] of [posixpath], two arguments. *)
Definition path_join (a b : str) : str :=
  if startswith [slash] b then b
  else if negb (nonempty a) || endswith [slash] a then a ++ b
  else a ++ slash :: b.

(** A string without a line break. *)
Definition no_nl (s : str) : Prop := Forall (fun c => c <> nl) s.

End Py.

Import Py.

(** ** The two emission passes of [create_documents] *)

Module Render.

(** What the first pass adds to the Word document: [doc.add_heading(text,
    level)], centred for level 1, and [doc.add_paragraph(text)]. *)
Inductive docx_elem :=
| DocxHeading (text : str) (level : nat) (centered : bool)
| DocxParagraph (text : str).

(** The styles and flowables of the PDF story. [CustomTitle] is
    [title_style]. *)
Inductive pdf_style := CustomTitle | Heading2 | Heading3 | Normal.

Inductive flowable :=
| Paragraph (text : str) (style : pdf_style)
| Spacer (width height : nat).

(** Body of the first loop (lines 85-101) for one element of
    [content.split('\n')]. *)
Definition docx_line (raw : str) : list docx_elem :=
  let line := strip raw in
  if negb (nonempty line) then []
  else if startswith (u "# ") line then [DocxHeading (skipn 2 line) 1 true]
  else if startswith (u "## ") line then [DocxHeading (skipn 3 line) 2 false]
  else if startswith (u "### ") line then [DocxHeading (skipn 4 line) 3 false]
  else if startswith (u "#### ") line then [DocxHeading (skipn 5 line) 4 false]
  else if nonempty line && negb (startswith (u "#") line)
       then [DocxParagraph line]
       else [].

Definition docx_body (content : str) : list docx_elem :=
  flat_map docx_line (split_nl content).

(** Body of the second loop (lines 121-136). *)
Definition pdf_line (raw : str) : list flowable :=
  let line := strip raw in
  if negb (nonempty line) then [Spacer 1 12]
  else if startswith (u "# ") line then [Paragraph (skipn 2 line) CustomTitle]
  else if startswith (u "## ") line then [Paragraph (skipn 3 line) Heading2]
  else if startswith (u "### ") line then [Paragraph (skipn 4 line) Heading3]
  else if nonempty line && negb (startswith (u "#") line)
       then [Paragraph line Normal; Spacer 1 6]
       else [].

Definition pdf_story (content : str) : list flowable :=
  flat_map pdf_line (split_nl content).

(** The blocks a reader sees in either output: headings with their level
    and paragraphs.  Spacers are layout, not blocks. *)
Inductive block :=
| Heading (level : nat) (text : str)
| Para (text : str).

Definition docx_block (e : docx_elem) : block :=
  match e with
  | DocxHeading t l _ => Heading l t
  | DocxParagraph t => Para t
  end.

Definition pdf_block (f : flowable) : list block :=
  match f with
  | Paragraph t CustomTitle => [Heading 1 t]
  | Paragraph t Heading2 => [Heading 2 t]
  | Paragraph t Heading3 => [Heading 3 t]
  | Paragraph t Normal => [Para t]
  | Spacer _ _ => []
  end.

Definition docx_blocks (content : str) : list block :=
  map docx_block (docx_body content).

Definition pdf_blocks (content : str) : list block :=
  flat_map pdf_block (pdf_story content).

(** Text of a block with its heading marker put back: [level] hashes and a
    space before a heading text, a paragraph as it is. *)
Definition line_of (e : docx_elem) : str :=
  match e with
  | DocxHeading t l _ => repeat hash l ++ space :: t
  | DocxParagraph t => t
  end.

Definition reconstruct (body : list docx_elem) : str :=
  join_nl (map line_of body).

(** The same with an empty line between consecutive blocks. *)
Fixpoint spaced_lines (body : list docx_elem) : list str :=
  match body with
  | [] => []
  | [e] => [line_of e]
  | e :: rest => line_of e :: [] :: spaced_lines rest
  end.

Definition reconstruct_spaced (body : list docx_elem) : str :=
  join_nl (spaced_lines body).

(** What a block was read from is read back as that block. *)
Definition stable (e : docx_elem) : Prop :=
  no_nl (line_of e) /\ docx_line (line_of e) = [e].

End Render.

Import Render.

(** ** File names *)

Module Names.

Definition ascii_alnum (c : char) : bool :=
  ((48 <=? c) && (c <=? 57) || (65 <=? c) && (c <=? 90)
   || (97 <=? c) && (c <=? 122))%N.

(** [c.isalnum()].  Below 128 the answer is written out; above, it is the
    Unicode table of the interpreter, [tbl]. *)
Definition isalnum (tbl : char -> bool) (c : char) : bool :=
  if (c <? 128)%N then ascii_alnum c else tbl c.

(** Lines 74-75. *)
Definition kept (tbl : char -> bool) (c : char) : bool :=
  isalnum tbl c || ((c =? space) || (c =? hyphen) || (c =? underscore))%N.

Definition safe_topic (tbl : char -> bool) (topic : str) : str :=
  firstn 30 (replace [space] [underscore] (filter (kept tbl) topic)).

Record datetime := {
  year : nat; month : nat; day : nat;
  hour : nat; minute : nat; second : nat
}.

(** [strftime("%Y%m%d_%H%M%S")]; the year is written with at least four
    digits, as for every year the clock can show. *)
Definition strftime (t : datetime) : str :=
  zfill 4 (str_of_nat (year t)) ++ zfill 2 (str_of_nat (month t))
  ++ zfill 2 (str_of_nat (day t)) ++ underscore
  :: zfill 2 (str_of_nat (hour t)) ++ zfill 2 (str_of_nat (minute t))
  ++ zfill 2 (str_of_nat (second t)).

(** Line 70. *)
Definition doc_dir (cwd : str) : str := path_join cwd (u "doc").

(** Line 79. *)
Definition filename (tbl : char -> bool) (topic : str) (t : datetime) : str :=
  u "research_paper_" ++ safe_topic tbl topic ++ underscore
  :: strftime t ++ u ".docx".

(** Line 80. *)
Definition document_path_of (tbl : char -> bool) (cwd topic : str)
    (t : datetime) : str :=
  path_join (doc_dir cwd) (filename tbl topic t).

(** Line 106. *)
Definition pdf_path_of (document_path : str) : str :=
  replace (u ".docx") (u ".pdf") document_path.

(** The name both files are meant to share: the file name without its
    extension. *)
Definition base_name (tbl : char -> bool) (topic : str) (t : datetime) : str :=
  u "research_paper_" ++ safe_topic tbl topic ++ underscore :: strftime t.

(** The characters [safe_topic] can contain. *)
Definition allowed (tbl : char -> bool) (c : char) : Prop :=
  isalnum tbl c = true \/ c = hyphen \/ c = underscore.

Definition digit (c : char) : Prop := (48 <= c <= 57)%N.

End Names.

Import Names.

(** ** Effects: outside world, exceptions and the event log *)

Module Effects.

(** An exception is known by [str(e)]. *)
Definition exn := str.

Inductive outcome (A : Type) :=
| Ret (a : A)
| Raise (e : exn).

Arguments Ret {A} a.
Arguments Raise {A} e.

(** One entry of the answer of the search service. *)
Record search_hit := { title : str; content : str; url : str }.

(** The shared state of the workflow, [ResearchState]. *)
Record ResearchState := {
  messages : list str;
  topic : str;
  research_data : str;
  paper_content : str;
  document_path : str;
  pdf_path : str;
  step : str
}.

(** Names of the workflow nodes. *)
Inductive node := research | write | create_docs.

(** Calls that leave the program, in the order they happen.  [EvNode] is
    the workflow engine starting a node, [EvState] the state it holds at
    the start and after a node has returned, [EvLlmClient] the construction
    of the model client. *)
Inductive event :=
| EvNode (n : node)
| EvPrint (text : str)
| EvInput (prompt : str)
| EvTavily (query depth : str) (max_results : nat)
| EvLlm (prompt : str)
| EvLlmClient (model temperature : str)
| EvMakedirs (path : str)
| EvDocx (path : str) (body : list docx_elem)
| EvPdf (path : str) (story : list flowable)
| EvState (st : ResearchState).

(** The collaborators of the program.  [getcwd] and [now] read the world;
    the others may change it and may raise.  [docx_save] stands for
    building and saving the Word document, [pdf_build] for building the PDF
    from the story.  [tavily_search] stands for building the search client,
    the call and the reading of the answer as a list of hits with string
    fields: an answer that cannot be read so makes the code raise inside the
    same [try], and counts as a raise of [tavily_search].  [llm_client] is
    the construction of the model client in [__init__].  [unicode_alnum]
    and [str_lower] are the interpreter's Unicode tables behind
    [str.isalnum] and [str.lower]. *)
Record Runtime := {
  World : Type;
  unicode_alnum : char -> bool;
  str_lower : str -> str;
  getcwd : World -> str;
  now : World -> datetime;
  makedirs : str -> World -> outcome unit * World;
  tavily_search : str -> str -> nat -> World -> outcome (list search_hit) * World;
  llm_invoke : str -> World -> outcome str * World;
  llm_client : World -> outcome unit * World;
  docx_save : str -> list docx_elem -> World -> outcome unit * World;
  pdf_build : str -> list flowable -> World -> outcome unit * World;
  console_input : str -> World -> outcome str * World
}.

Section Monad.

Variable R : Runtime.

(** A computation: from a world to an outcome, the next world and the
    events it caused. *)
Definition M (A : Type) : Type := World R -> outcome A * World R * list event.

Definition ret {A} (a : A) : M A := fun w => (Ret a, w, []).

Definition raise {A} (e : exn) : M A := fun w => (Raise e, w, []).

Definition bind {A B} (m : M A) (f : A -> M B) : M B :=
  fun w =>
    match m w with
    | (Ret a, w1, l1) =>
        match f a w1 with
        | (r, w2, l2) => (r, w2, l1 ++ l2)
        end
    | (Raise e, w1, l1) => (Raise e, w1, l1)
    end.

(** [try: m except Exception as e: h e] *)
Definition try_except {A} (m : M A) (h : exn -> M A) : M A :=
  fun w =>
    match m w with
    | (Ret a, w1, l1) => (Ret a, w1, l1)
    | (Raise e, w1, l1) =>
        match h e w1 with
        | (r, w2, l2) => (r, w2, l1 ++ l2)
        end
    end.

Definition read {A} (f : World R -> A) : M A := fun w => (Ret (f w), w, []).

Definition call {A} (ev : event) (f : World R -> outcome A * World R) : M A :=
  fun w => match f w with (r, w1) => (r, w1, [ev]) end.

Definition print (text : str) : M unit := fun w => (Ret tt, w, [EvPrint text]).

Definition input (prompt : str) : M str :=
  call (EvInput prompt) (console_input R prompt).

Definition result_of {A} (x : outcome A * World R * list event) : outcome A :=
  fst (fst x).
Definition world_of {A} (x : outcome A * World R * list event) : World R :=
  snd (fst x).
Definition log_of {A} (x : outcome A * World R * list event) : list event :=
  snd x.

End Monad.

Arguments ret {R A} a.
Arguments raise {R A} e.
Arguments bind {R A B} m f.
Arguments try_except {R A} m h.
Arguments read {R A} f.
Arguments call {R A} ev f.
Arguments print {R} text.
Arguments input {R} prompt.
Arguments result_of {R A} x.
Arguments world_of {R A} x.
Arguments log_of {R A} x.

Declare Scope py_scope.
Delimit Scope py_scope with py.
Notation "x <- m ;; k" := (bind m (fun x => k))
  (at level 61, m at next level, right associativity) : py_scope.
Notation "m ;;; k" := (bind m (fun _ => k))
  (at level 61, right associativity) : py_scope.

End Effects.

Import Effects.
Local Open Scope py_scope.

(** ** The program *)

Module Agent.

(** Result of [create_documents]: the dict with keys [document_path] and
    [pdf_path]. *)
Record doc_results := { res_document_path : str; res_pdf_path : str }.

(** Result of [create_research_paper] and [edit_paper]: a dict in which
    some keys may be absent. *)
Record paper_result := {
  r_topic : str;
  r_document_path : option str;
  r_pdf_path : option str;
  r_paper_content : option str;
  r_error : option str;
  r_status : str
}.

(** The vertices of the workflow graph. *)
Inductive vertex := START | At (n : node) | END.

Definition node_eqb (a b : node) : bool :=
  match a, b with
  | research, research | write, write | create_docs, create_docs => true
  | _, _ => false
  end.

Definition vertex_eqb (a b : vertex) : bool :=
  match a, b with
  | START, START | END, END => true
  | At n, At m => node_eqb n m
  | _, _ => false
  end.

(** [dict.get(key, default)] on an optional key. *)
Definition get_or (o : option str) (default : str) : str :=
  match o with Some v => v | None => default end.

(** [s.upper()], for the ASCII words it is applied to. *)
Definition upper_ascii (s : str) : str :=
  map (fun c => if (97 <=? c)%N && (c <=? 122)%N then (c - 32)%N else c) s.

Inductive loop_ctl := Continue | Break.

Section Program.

Variable R : Runtime.

Local Abbreviation M := (Effects.M R).

(** *** [research_with_tavily] *)

Definition tavily_query (topic : str) : str :=
  u "academic research " ++ topic ++ u " recent studies findings".

Definition format_hit (i : nat) (h : search_hit) : str :=
  (str_of_nat i ++ u ". **" ++ title h ++ u "**" ++ [nl])
  ++ (u "   Content: " ++ firstn 600 (content h) ++ u "..." ++ [nl])
  ++ (u "   Source: " ++ url h ++ [nl; nl]).

Fixpoint format_hits (i : nat) (hits : list search_hit) : str :=
  match hits with
  | [] => []
  | h :: rest => format_hit i h ++ format_hits (S i) rest
  end.

Definition formatted_results (topic : str) (hits : list search_hit) : str :=
  u "Research Results for '" ++ topic ++ u "':" ++ [nl; nl]
  ++ format_hits 1 hits.

Definition research_fallback (e : exn) : str :=
  u "Research failed: " ++ e ++ u ". Using AI knowledge instead.".

Definition research_with_tavily (topic : str) : M str :=
  try_except
    (hits <- call (EvTavily (tavily_query topic) (u "advanced") 6)
               (tavily_search R (tavily_query topic) (u "advanced") 6) ;;
     ret (formatted_results topic hits))
    (fun e => ret (research_fallback e)).

(** *** [create_documents] *)

(** Lines 69-103: directory, file name, first pass, save.  Returns
    [document_path]. *)
Definition emit_docx (content topic : str) : M str :=
  cwd <- read (getcwd R) ;;
  call (EvMakedirs (doc_dir cwd)) (makedirs R (doc_dir cwd)) ;;;
  t <- read (now R) ;;
  let document_path := document_path_of (unicode_alnum R) cwd topic t in
  call (EvDocx document_path (docx_body content))
       (docx_save R document_path (docx_body content)) ;;;
  ret document_path.

(** Lines 108-138: second pass and build. *)
Definition emit_pdf (content pdf_path : str) : M unit :=
  call (EvPdf pdf_path (pdf_story content))
       (pdf_build R pdf_path (pdf_story content)).

Definition create_documents (content topic : str) : M doc_results :=
  try_except
    (document_path <- emit_docx content topic ;;
     pdf_path <- try_except
                   (emit_pdf content (pdf_path_of document_path) ;;;
                    ret (pdf_path_of document_path))
                   (fun e => ret (u "PDF creation failed: " ++ e)) ;;
     ret {| res_document_path := document_path; res_pdf_path := pdf_path |})
    (fun e =>
       ret {| res_document_path := u "Document creation failed: " ++ e;
              res_pdf_path := u "PDF creation failed: " ++ e |}).

(** *** The nodes *)

Definition _research_node (state : ResearchState) : M ResearchState :=
  print (0x1F50D%N :: u " Researching: " ++ topic state) ;;;
  data <- research_with_tavily (topic state) ;;
  ret {| messages := messages state; topic := topic state;
         research_data := data;
         paper_content := paper_content state;
         document_path := document_path state;
         pdf_path := pdf_path state;
         step := u "research_complete" |}.

Definition writing_prompt (topic research_data : str) : str :=
  join_nl
    [ u "Based on the research data below, write a comprehensive academic research paper about "
        ++ dquote :: topic ++ dquote :: u ".";
      [];
      u "Research Data:";
      research_data;
      [];
      u "Structure the paper with:";
      u "1. # Title";
      u "2. ## Abstract (150-200 words)";
      u "3. ## Introduction";
      u "4. ## Literature Review/Background";
      u "5. ## Main Analysis (2-3 sections with ### subheadings)";
      u "6. ## Conclusion";
      u "7. ## References";
      [];
      u "Use formal academic language and ensure the paper is well-researched and comprehensive.";
      u "Format using markdown headers (# ## ###).";
      u "Include proper citations and references.";
      u "Aim for approximately 2000-2500 words.";
      [];
      u "Write the complete paper now:" ].

Definition _write_node (state : ResearchState) : M ResearchState :=
  print (0x270D%N :: 0xFE0F%N :: u " Writing paper for: " ++ topic state) ;;;
  text <- call (EvLlm (writing_prompt (topic state) (research_data state)))
            (llm_invoke R (writing_prompt (topic state) (research_data state))) ;;
  ret {| messages := messages state; topic := topic state;
         research_data := research_data state;
         paper_content := text;
         document_path := document_path state;
         pdf_path := pdf_path state;
         step := u "writing_complete" |}.

Definition _create_docs_node (state : ResearchState) : M ResearchState :=
  print (0x1F4C4%N :: u " Creating documents for: " ++ topic state) ;;;
  docs <- create_documents (paper_content state) (topic state) ;;
  ret {| messages := messages state; topic := topic state;
         research_data := research_data state;
         paper_content := paper_content state;
         document_path := res_document_path docs;
         pdf_path := res_pdf_path docs;
         step := u "documents_complete" |}.

(** *** The workflow graph and its engine *)

Record StateGraph := {
  nodes : list (node * (ResearchState -> M ResearchState));
  edges : list (vertex * vertex)
}.

Definition _create_workflow : StateGraph :=
  {| nodes := [ (research, _research_node);
                (write, _write_node);
                (create_docs, _create_docs_node) ];
     edges := [ (START, At research);
                (At research, At write);
                (At write, At create_docs);
                (At create_docs, END) ] |}.

Fixpoint successor (es : list (vertex * vertex)) (v : vertex) : option vertex :=
  match es with
  | [] => None
  | (a, b) :: rest => if vertex_eqb a v then Some b else successor rest v
  end.

Fixpoint node_function (ns : list (node * (ResearchState -> M ResearchState)))
    (n : node) : option (ResearchState -> M ResearchState) :=
  match ns with
  | [] => None
  | (m, f) :: rest => if node_eqb m n then Some f else node_function rest n
  end.

(** The engine follows the edge that leaves the current vertex, runs the
    node it reaches on the current state and holds the state the node
    returns, until the edge leads to [END].  It gives up after
    [recursion_limit] steps. *)
Definition recursion_limit : nat := 25.

Fixpoint run_graph (g : StateGraph) (steps : nat) (v : vertex)
    (state : ResearchState) : M ResearchState :=
  match steps with
  | O => raise (u "Recursion limit of 25 reached")
  | S k =>
      match successor (edges g) v with
      | Some (At n) =>
          match node_function (nodes g) n with
          | Some f =>
              call (EvNode n) (fun w => (Ret tt, w)) ;;;
              state' <- f state ;;
              call (EvState state') (fun w => (Ret tt, w)) ;;;
              run_graph g k (At n) state'
          | None => raise (u "unknown node")
          end
      | _ => ret state
      end
  end.

(** [self.app.invoke(initial_state)] *)
Definition app_invoke (initial_state : ResearchState) : M ResearchState :=
  call (EvState initial_state) (fun w => (Ret tt, w)) ;;;
  run_graph _create_workflow recursion_limit START initial_state.

(** *** [create_research_paper] *)

Definition initial_state (topic : str) : ResearchState :=
  {| messages := []; topic := topic; research_data := [];
     paper_content := []; document_path := []; pdf_path := [];
     step := u "start" |}.

Definition create_research_paper (topic : str) : M paper_result :=
  print (0x1F680%N :: u " Starting research paper creation for: " ++ topic) ;;;
  try_except
    (final_state <- app_invoke (initial_state topic) ;;
     ret {| r_topic := topic;
            r_document_path := Some (document_path final_state);
            r_pdf_path := Some (pdf_path final_state);
            r_paper_content := Some (paper_content final_state);
            r_error := None;
            r_status := if str_eqb (step final_state) (u "documents_complete")
                        then u "completed" else u "partial" |})
    (fun e =>
       print (0x274C%N :: u " Error in workflow: " ++ e) ;;;
       ret {| r_topic := topic;
              r_document_path := None; r_pdf_path := None;
              r_paper_content := None;
              r_error := Some e;
              r_status := u "failed" |}).

(** *** [edit_paper] *)

Definition editing_prompt (current_content change_request : str) : str :=
  join_nl
    [ u "You are editing a research paper. The user wants to make the following changes:";
      [];
      u "USER REQUEST: " ++ change_request;
      [];
      u "CURRENT PAPER CONTENT:";
      current_content;
      [];
      u "Please apply the requested changes to the paper content. Maintain the same academic structure and formatting, but incorporate the user's specific requests. Return the complete modified paper content with proper markdown formatting.";
      [];
      u "Modified paper:" ].

Definition edit_paper (current_content change_request topic : str)
    : M paper_result :=
  edited_content <-
    call (EvLlm (editing_prompt current_content change_request))
         (llm_invoke R (editing_prompt current_content change_request)) ;;
  docs <- create_documents edited_content topic ;;
  ret {| r_topic := topic;
         r_document_path := Some (res_document_path docs);
         r_pdf_path := Some (res_pdf_path docs);
         r_paper_content := Some edited_content;
         r_error := None;
         r_status := u "completed" |}.

(** The states the engine holds after each node of a run on [topic]. *)
Definition after_research (topic data : str) : ResearchState :=
  {| messages := []; topic := topic; research_data := data;
     paper_content := []; document_path := []; pdf_path := [];
     step := u "research_complete" |}.

Definition after_write (topic data text : str) : ResearchState :=
  {| messages := []; topic := topic; research_data := data;
     paper_content := text; document_path := []; pdf_path := [];
     step := u "writing_complete" |}.

Definition after_docs (topic data text : str) (docs : doc_results)
    : ResearchState :=
  {| messages := []; topic := topic; research_data := data;
     paper_content := text;
     document_path := res_document_path docs;
     pdf_path := res_pdf_path docs;
     step := u "documents_complete" |}.

(** One step of the engine: announce the node, run it, hold its state and
    go on with [k]. *)
Definition node_step (n : node) (f : ResearchState -> M ResearchState)
    (k : ResearchState -> M ResearchState) (state : ResearchState)
    : M ResearchState :=
  call (EvNode n) (fun w => (Ret tt, w)) ;;;
  state' <- f state ;;
  call (EvState state') (fun w => (Ret tt, w)) ;;;
  k state'.

(** The results [create_research_paper] can return. *)
Definition completed_result (topic text : str) (docs : doc_results)
    : paper_result :=
  {| r_topic := topic;
     r_document_path := Some (res_document_path docs);
     r_pdf_path := Some (res_pdf_path docs);
     r_paper_content := Some text;
     r_error := None;
     r_status := u "completed" |}.

Definition failed_result (topic : str) (e : exn) : paper_result :=
  {| r_topic := topic;
     r_document_path := None; r_pdf_path := None;
     r_paper_content := None;
     r_error := Some e;
     r_status := u "failed" |}.

(** The event log of a run in which the model answered [text], and of a
    run in which it raised [e]; [l1] is the log of the research call, [l3]
    the log of [create_documents]. *)
Definition log_until_write (topic data : str) (l1 : list event) : list event :=
  [ EvPrint (0x1F680%N :: u " Starting research paper creation for: " ++ topic);
    EvState (initial_state topic);
    EvNode research;
    EvPrint (0x1F50D%N :: u " Researching: " ++ topic) ]
  ++ l1
  ++ [ EvState (after_research topic data);
       EvNode write;
       EvPrint (0x270D%N :: 0xFE0F%N :: u " Writing paper for: " ++ topic);
       EvLlm (writing_prompt topic data) ].

Definition log_completed (topic data text : str) (docs : doc_results)
    (l1 l3 : list event) : list event :=
  log_until_write topic data l1
  ++ [ EvState (after_write topic data text);
       EvNode create_docs;
       EvPrint (0x1F4C4%N :: u " Creating documents for: " ++ topic) ]
  ++ l3
  ++ [ EvState (after_docs topic data text docs) ].

Definition log_failed (topic data : str) (e : exn) (l1 : list event)
    : list event :=
  log_until_write topic data l1
  ++ [ EvPrint (0x274C%N :: u " Error in workflow: " ++ e) ].

(** *** [__init__] and [main] *)

(** [SimpleResearchAgent()], lines 155-165: the model client is built;
    building and compiling the workflow touches nothing outside. *)
Definition __init__ : M unit :=
  call (EvLlmClient (u "gemini-1.5-flash") (u "0.7")) (llm_client R).

(** [d[key]] on a key that may be absent. *)
Definition getitem (key : str) (o : option str) : M str :=
  match o with
  | Some v => ret v
  | None => raise (39%N :: key ++ [39%N])
  end.

Definition rule (n : nat) : str := repeat 61%N n.

(** The two questions of the loop, and its answer to an empty request. *)
Definition ask_changes : str :=
  nl :: u "Would you like to make any changes to the paper? (y/n): ".

Definition ask_description : str :=
  nl :: u "Describe the changes you want to make: ".

Definition say_invalid_request : str :=
  0x274C%N :: u " Please provide a valid change request.".

(** One pass through the body of [while True] (lines 363-398), from the
    result held in [current_result]. *)
Definition edit_round (current_result : paper_result)
    : M (loop_ctl * paper_result) :=
  print (nl :: rule 50) ;;;
  answer <- input ask_changes ;;
  let make_changes := strip (str_lower R answer) in
  if str_eqb make_changes (u "y") then
    typed <- input ask_description ;;
    let change_request := strip typed in
    if nonempty change_request then
      print (nl :: 0x1F504%N :: u " Applying changes: " ++ change_request) ;;;
      try_except
        (edit_result <- edit_paper (get_or (r_paper_content current_result) [])
                          change_request (r_topic current_result) ;;
         if str_eqb (r_status edit_result) (u "completed") then
           print (0x2705%N :: u " Changes applied successfully!") ;;;
           d <- getitem (u "document_path") (r_document_path edit_result) ;;
           print (0x1F4C4%N :: u " Updated Word Document: " ++ d) ;;;
           p <- getitem (u "pdf_path") (r_pdf_path edit_result) ;;
           print (0x1F4D1%N :: u " Updated PDF Document: " ++ p) ;;;
           ret (Continue, edit_result)
         else
           print (0x274C%N :: u " Edit failed: "
                    ++ get_or (r_error edit_result) (u "Unknown error")) ;;;
           ret (Continue, current_result))
        (fun e =>
           print (0x274C%N :: u " Edit error: " ++ e) ;;;
           ret (Continue, current_result))
    else
      print say_invalid_request ;;;
      ret (Continue, current_result)
  else if str_eqb make_changes (u "n") then
    print (nl :: 0x2705%N :: u " Research paper creation completed successfully!") ;;;
    ret (Break, current_result)
  else
    print (0x274C%N :: u " Please enter 'y' for yes or 'n' for no.") ;;;
    ret (Continue, current_result).

(** The loop, for at most [rounds] passes; [None] when it is still running
    after them. *)
Fixpoint edit_loop (rounds : nat) (current_result : paper_result)
    : M (option paper_result) :=
  match rounds with
  | O => ret None
  | S k =>
      r <- edit_round current_result ;;
      match fst r with
      | Break => ret (Some (snd r))
      | Continue => edit_loop k (snd r)
      end
  end.

(** [main], with the loop bounded as in [edit_loop]; [Some tt] when [main]
    returns. *)
Definition main (rounds : nat) : M (option unit) :=
  print (0x1F393%N :: u " AI Research Paper Creator") ;;;
  print (rule 40) ;;;
  typed <- input (nl :: u "Enter your research topic: ") ;;
  let topic := strip typed in
  __init__ ;;;
  try_except
    (print (nl :: 0x1F504%N :: u " Creating research paper on: " ++ topic) ;;;
     print (0x1F50D%N :: u " Starting research and writing process...") ;;;
     result <- create_research_paper topic ;;
     print (nl :: rule 50) ;;;
     print (0x1F4CA%N :: u " RESEARCH PAPER COMPLETED") ;;;
     print (rule 50) ;;;
     if str_eqb (r_status result) (u "completed") then
       print (0x2705%N :: u " Topic: " ++ r_topic result) ;;;
       d <- getitem (u "document_path") (r_document_path result) ;;
       print (0x1F4C4%N :: u " Word Document: " ++ d) ;;;
       p <- getitem (u "pdf_path") (r_pdf_path result) ;;
       print (0x1F4D1%N :: u " PDF Document: " ++ p) ;;;
       print (nl :: 0x1F4C1%N :: u " Documents saved in: doc/ folder") ;;;
       last <- edit_loop rounds result ;;
       ret (match last with Some _ => Some tt | None => None end)
     else
       print (0x274C%N :: u " Status: " ++ upper_ascii (r_status result)) ;;;
       print (u "Error: " ++ get_or (r_error result) (u "Unknown error")) ;;;
       ret (Some tt))
    (fun e => print (0x274C%N :: u " Error: " ++ e) ;;; ret (Some tt)).

End Program.

End Agent.

Import Agent.

(** ** Stages of a run *)

Module Stages.

Inductive stage := Start | Researched | Written | Rendered | Failed.

Definition stage_eqb (a b : stage) : bool :=
  match a, b with
  | Start, Start | Researched, Researched | Written, Written
  | Rendered, Rendered | Failed, Failed => true
  | _, _ => false
  end.

(** The stage a value of [step] stands for. *)
Definition stage_of_step (s : str) : option stage :=
  if str_eqb s (u "start") then Some Start
  else if str_eqb s (u "research_complete") then Some Researched
  else if str_eqb s (u "writing_complete") then Some Written
  else if str_eqb s (u "documents_complete") then Some Rendered
  else None.

Definition next_stage (s : stage) : option stage :=
  match s with
  | Start => Some Researched
  | Researched => Some Written
  | Written => Some Rendered
  | Rendered | Failed => None
  end.

(** One forward move: to the next stage, or from a live stage to
    [Failed].  Nothing leaves [Failed]. *)
Definition advances (a b : stage) : bool :=
  match next_stage a with
  | Some c => stage_eqb b c || stage_eqb b Failed
  | None => stage_eqb b Failed && negb (stage_eqb a Failed)
  end.

Fixpoint forward_chain (l : list stage) : bool :=
  match l with
  | a :: ((b :: _) as rest) => advances a b && forward_chain rest
  | _ => true
  end.

Definition marker_of (ev : event) : list stage :=
  match ev with
  | EvState st =>
      match stage_of_step (step st) with Some s => [s] | None => [] end
  | _ => []
  end.

Definition node_of (ev : event) : list node :=
  match ev with EvNode n => [n] | _ => [] end.

(** The nodes the engine started, in order. *)
Definition nodes_run (log : list event) : list node := flat_map node_of log.

(** The stages a run of [create_research_paper] went through: the markers
    the engine held, then [Failed] when the run is reported failed. *)
Definition stage_trace (R : Runtime)
    (x : outcome paper_result * World R * list event) : list stage :=
  flat_map marker_of (log_of x)
  ++ match result_of x with
     | Ret r => if str_eqb (r_status r) (u "failed") then [Failed] else []
     | Raise _ => [Failed]
     end.

Arguments stage_trace {R} x.

(** Events that reach the language model or write a document. *)
Definition is_service (ev : event) : bool :=
  match ev with
  | EvLlm _ | EvMakedirs _ | EvDocx _ _ | EvPdf _ _ | EvTavily _ _ _ => true
  | _ => false
  end.

Definition is_render (ev : event) : bool :=
  match ev with
  | EvMakedirs _ | EvDocx _ _ | EvPdf _ _ => true
  | _ => false
  end.

Definition is_llm (ev : event) : bool :=
  match ev with EvLlm _ => true | _ => false end.

End Stages.

Import Stages.

(** ** A scripted runtime, to run the program on concrete inputs *)

Module Demo.

Record script := {
  tavily_error : option exn;
  llm_error : option exn;
  makedirs_error : option exn;
  docx_error : option exn;
  pdf_error : option exn;
  llm_text : str
}.

Definition answer {A} (err : option exn) (a : A) (w : list str)
    : outcome A * list str :=
  match err with
  | Some e => (Raise e, w)
  | None => (Ret a, w)
  end.

Definition lower_ascii (s : str) : str :=
  map (fun c => if (65 <=? c)%N && (c <=? 90)%N then (c + 32)%N else c) s.

Definition clock : datetime :=
  {| year := 2024; month := 3; day := 7; hour := 9; minute := 5; second := 0 |}.

Definition hits : list search_hit :=
  [ {| title := u "Four colours"; content := u "Every planar map";
       url := u "http://example.org/4" |} ].

(** The world is what is still to be typed at the console. *)
Definition runtime (s : script) : Runtime :=
  {| World := list str;
     unicode_alnum := fun _ => false;
     str_lower := lower_ascii;
     getcwd := fun _ => u "/home/user";
     now := fun _ => clock;
     makedirs := fun _ => answer (makedirs_error s) tt;
     tavily_search := fun _ _ _ => answer (tavily_error s) hits;
     llm_invoke := fun _ => answer (llm_error s) (llm_text s);
     llm_client := fun w => (Ret tt, w);
     docx_save := fun _ _ => answer (docx_error s) tt;
     pdf_build := fun _ _ => answer (pdf_error s) tt;
     console_input := fun _ w =>
       match w with
       | [] => (Raise (u "EOF when reading a line"), [])
       | l :: rest => (Ret l, rest)
       end |}.

Definition paper : str :=
  join_nl [ u "# Graph coloring"; []; u "## Abstract"; u "Colours and maps.";
            []; u "## References"; u "[1] Appel"; u "[2] Haken" ].

Definition all_fine : script :=
  {| tavily_error := None; llm_error := None; makedirs_error := None;
     docx_error := None; pdf_error := None; llm_text := paper |}.

Definition tavily_down : script :=
  {| tavily_error := Some (u "timeout"); llm_error := None;
     makedirs_error := None; docx_error := None; pdf_error := None;
     llm_text := paper |}.

Definition llm_down : script :=
  {| tavily_error := None; llm_error := Some (u "quota exceeded");
     makedirs_error := None; docx_error := None; pdf_error := None;
     llm_text := paper |}.

Definition docx_down : script :=
  {| tavily_error := None; llm_error := None; makedirs_error := None;
     docx_error := Some (u "disk full"); pdf_error := None;
     llm_text := paper |}.

Definition pdf_down : script :=
  {| tavily_error := None; llm_error := None; makedirs_error := None;
     docx_error := None; pdf_error := Some (u "bad markup");
     llm_text := paper |}.

Definition topic0 : str := u "graph coloring".

End Demo.

(** ** Notions used to describe the outputs and the logs *)

Module Observe.

Definition cr : char := 13%N.

Definition is_level4 (b : block) : bool :=
  match b with
  | Heading 4 _ => true
  | _ => false
  end.

(** A text that can stand in a document: not empty, on one line, not
    ending in white space. *)
Definition good_text (t : str) : Prop :=
  t <> [] /\ no_nl t /\ forall a c, t = a ++ [c] -> isspace c = false.

Definition good_docx (e : docx_elem) : Prop :=
  match e with
  | DocxHeading t l c => good_text t /\ 1 <= l <= 4 /\ c = Nat.eqb l 1
  | DocxParagraph t =>
      good_text t /\ strip t = t /\ startswith [hash] t = false
  end.

Definition good_flowable (f : flowable) : Prop :=
  match f with
  | Paragraph t _ => good_text t
  | Spacer w h => w = 1 /\ (h = 6 \/ h = 12)
  end.

(** The content with every line feed turned into carriage return and line
    feed. *)
Definition to_crlf (content : str) : str := replace [nl] [cr; nl] content.

(** A line, or the line with a carriage return after it. *)
Definition same_or_cr (l l' : str) : Prop := l = l' \/ l = l' ++ [cr].

(** [space] for [underscore]: what line 75 does to the kept characters. *)
Definition underscored (s : str) : str :=
  map (fun c => if (space =? c)%N then underscore else c) s.

Definition is_input (ev : event) : bool :=
  match ev with EvInput _ => true | _ => false end.

(** The calls of a log that reach a service or the file system. *)
Definition service_calls (log : list event) : list event :=
  filter is_service log.

Definition is_paragraph (e : docx_elem) : bool :=
  match e with DocxParagraph _ => true | DocxHeading _ _ _ => false end.

Definition is_body_text (f : flowable) : bool :=
  match f with Paragraph _ Normal => true | _ => false end.

(** A line that is not blank and does not begin with a hash once
    stripped. *)
Definition is_text_line (raw : str) : bool :=
  nonempty (strip raw) && negb (startswith [hash] (strip raw)).

(** The question [main] starts with, and the part of [main] inside its
    [try] (lines 341-405), run on the topic read. *)
Definition ask_topic : str := nl :: u "Enter your research topic: ".

Definition main_try (R : Runtime) (rounds : nat) (topic : str)
    : M R (option unit) :=
  try_except
    (print (nl :: 0x1F504%N :: u " Creating research paper on: " ++ topic) ;;;
     print (0x1F50D%N :: u " Starting research and writing process...") ;;;
     result <- create_research_paper R topic ;;
     print (nl :: rule 50) ;;;
     print (0x1F4CA%N :: u " RESEARCH PAPER COMPLETED") ;;;
     print (rule 50) ;;;
     if str_eqb (r_status result) (u "completed") then
       print (0x2705%N :: u " Topic: " ++ r_topic result) ;;;
       d <- getitem R (u "document_path") (r_document_path result) ;;
       print (0x1F4C4%N :: u " Word Document: " ++ d) ;;;
       p <- getitem R (u "pdf_path") (r_pdf_path result) ;;
       print (0x1F4D1%N :: u " PDF Document: " ++ p) ;;;
       print (nl :: 0x1F4C1%N :: u " Documents saved in: doc/ folder") ;;;
       last <- edit_loop R rounds result ;;
       ret (match last with Some _ => Some tt | None => None end)
     else
       print (0x274C%N :: u " Status: " ++ upper_ascii (r_status result)) ;;;
       print (u "Error: " ++ get_or (r_error result) (u "Unknown error")) ;;;
       ret (Some tt))
    (fun e => print (0x274C%N :: u " Error: " ++ e) ;;; ret (Some tt)).

(** What [main] prints and asks before its [try]. *)
Definition main_opening : list event :=
  [ EvPrint (0x1F393%N :: u " AI Research Paper Creator");
    EvPrint (rule 40);
    EvInput ask_topic ].

(** The construction of the model client, as logged. *)
Definition client_built : event :=
  EvLlmClient (u "gemini-1.5-flash") (u "0.7").





(** What [main] prints after a run that was reported failed with [e]. *)
Definition main_failed_report (e : exn) : list event :=
  [ EvPrint (nl :: rule 50);
    EvPrint (0x1F4CA%N :: u " RESEARCH PAPER COMPLETED");
    EvPrint (rule 50);
    EvPrint (0x274C%N :: u " Status: FAILED");
    EvPrint (u "Error: " ++ e) ].

End Observe.

Import Observe.

(** * Properties *)

Unset Implicit Arguments.

(** ** Strings *)

Module PyFacts.

Lemma startswith_split (p s : str) :
  startswith p s = true -> s = p ++ skipn (List.length p) s.
Proof.
  revert s; induction p as [|a p IH]; intros [|b s] H; simpl in *;
    try reflexivity; try discriminate.
  apply andb_true_iff in H as [Hab Hps].
  apply N.eqb_eq in Hab; subst b.
  f_equal; apply IH, Hps.
Qed.

Lemma startswith_app (p s : str) : startswith p (p ++ s) = true.
Proof.
  induction p as [|a p IH]; simpl; [reflexivity|].
  rewrite N.eqb_refl, IH; reflexivity.
Qed.

Lemma startswith_app_r (p a b : str) :
  startswith p a = true -> startswith p (a ++ b) = true.
Proof.
  revert a; induction p as [|x p IH]; intros [|y a] H; simpl in *;
    try reflexivity; try discriminate.
  apply andb_true_iff in H as [H1 H2].
  rewrite H1, (IH _ H2); reflexivity.
Qed.

Lemma lstrip_idem (s : str) : lstrip (lstrip s) = lstrip s.
Proof.
  induction s as [|c s IH]; simpl; [reflexivity|].
  destruct (isspace c) eqn:E; [exact IH|].
  simpl; rewrite E; reflexivity.
Qed.

Lemma lstrip_head (s : str) c t : lstrip s = c :: t -> isspace c = false.
Proof.
  induction s as [|a s IH]; simpl; [discriminate|].
  destruct (isspace a) eqn:E; [exact IH|].
  intros H; injection H as -> _; exact E.
Qed.

Lemma lstrip_snoc (a : str) c :
  isspace c = false -> lstrip (a ++ [c]) = lstrip a ++ [c].
Proof.
  intros Hc; induction a as [|x a IH]; simpl.
  - rewrite Hc; reflexivity.
  - destruct (isspace x); [exact IH | reflexivity].
Qed.

Lemma rstrip_cons (c : char) (s : str) :
  isspace c = false -> rstrip (c :: s) = c :: rstrip s.
Proof.
  intros Hc; unfold rstrip; simpl.
  rewrite lstrip_snoc by exact Hc. rewrite rev_app_distr; reflexivity.
Qed.

Lemma rstrip_idem (s : str) : rstrip (rstrip s) = rstrip s.
Proof.
  unfold rstrip; rewrite rev_involutive, lstrip_idem; reflexivity.
Qed.

(** Stripping twice is stripping once. *)
Lemma strip_idem (s : str) : strip (strip s) = strip s.
Proof.
  unfold strip.
  destruct (lstrip s) as [|c t] eqn:E; [reflexivity|].
  assert (Hc : isspace c = false) by (eapply lstrip_head; exact E).
  rewrite rstrip_cons by exact Hc. simpl; rewrite Hc.
  rewrite rstrip_cons by exact Hc. rewrite rstrip_idem; reflexivity.
Qed.

Lemma lstrip_Forall (P : char -> Prop) (s : str) :
  Forall P s -> Forall P (lstrip s).
Proof.
  induction 1 as [|c s Hc Hs IH]; simpl; [constructor|].
  destruct (isspace c); [exact IH | constructor; assumption].
Qed.

Lemma strip_Forall (P : char -> Prop) (s : str) :
  Forall P s -> Forall P (strip s).
Proof.
  intros H; unfold strip, rstrip.
  apply Forall_rev, lstrip_Forall, Forall_rev, lstrip_Forall, H.
Qed.

Lemma split_nl_nonempty (s : str) : split_nl s <> [].
Proof.
  induction s as [|c s IH]; simpl; [discriminate|].
  destruct (c =? nl)%N; [discriminate|].
  destruct (split_nl s); discriminate.
Qed.

Lemma split_nl_no_nl (s : str) : Forall no_nl (split_nl s).
Proof.
  induction s as [|c s IH]; simpl.
  - repeat constructor.
  - destruct (N.eqb_spec c nl) as [->|Hc].
    + constructor; [constructor | exact IH].
    + destruct (split_nl s) as [|l ls]; [repeat constructor; assumption|].
      inversion IH; subst.
      constructor; [constructor; assumption | assumption].
Qed.

Lemma split_nl_line (l : str) : no_nl l -> split_nl l = [l].
Proof.
  induction 1 as [|c l Hc Hl IH]; simpl; [reflexivity|].
  apply N.eqb_neq in Hc; rewrite Hc, IH; reflexivity.
Qed.

Lemma split_nl_cons (l rest : str) :
  no_nl l -> split_nl (l ++ nl :: rest) = l :: split_nl rest.
Proof.
  induction 1 as [|c l Hc Hl IH]; simpl; [reflexivity|].
  apply N.eqb_neq in Hc; rewrite Hc, IH; reflexivity.
Qed.

(** Splitting what was joined gives the lines back. *)
Lemma split_join (ls : list str) :
  ls <> [] -> Forall no_nl ls -> split_nl (join_nl ls) = ls.
Proof.
  induction ls as [|l ls IH]; intros Hne Hall; [contradiction|].
  inversion Hall as [|? ? Hl Hls]; subst.
  destruct ls as [|l' ls'].
  - simpl; apply split_nl_line, Hl.
  - change (join_nl (l :: l' :: ls')) with (l ++ nl :: join_nl (l' :: ls')).
    rewrite split_nl_cons by exact Hl.
    rewrite IH; [reflexivity | discriminate | exact Hls].
Qed.

End PyFacts.

Import PyFacts.

(** ** The emission passes *)

Module RenderFacts.

(** A line gives at most one block, and with its marker put back the block
    is the stripped line. *)
Lemma docx_line_cases (raw : str) :
  docx_line raw = [] \/
  exists e, docx_line raw = [e] /\ line_of e = strip raw.
Proof.
  unfold docx_line.
  destruct (nonempty (strip raw)); cbn [negb andb]; [|left; reflexivity].
  destruct (startswith (u "# ") (strip raw)) eqn:H1.
  { right; eexists; split; [reflexivity|].
    exact (eq_sym (startswith_split (u "# ") (strip raw) H1)). }
  destruct (startswith (u "## ") (strip raw)) eqn:H2.
  { right; eexists; split; [reflexivity|].
    exact (eq_sym (startswith_split (u "## ") (strip raw) H2)). }
  destruct (startswith (u "### ") (strip raw)) eqn:H3.
  { right; eexists; split; [reflexivity|].
    exact (eq_sym (startswith_split (u "### ") (strip raw) H3)). }
  destruct (startswith (u "#### ") (strip raw)) eqn:H4.
  { right; eexists; split; [reflexivity|].
    exact (eq_sym (startswith_split (u "#### ") (strip raw) H4)). }
  destruct (startswith (u "#") (strip raw)); cbn [negb].
  - left; reflexivity.
  - right; eexists; split; reflexivity.
Qed.

Lemma docx_line_strip (raw : str) : docx_line (strip raw) = docx_line raw.
Proof. unfold docx_line; rewrite strip_idem; reflexivity. Qed.

Lemma docx_line_empty : docx_line [] = [].
Proof. reflexivity. Qed.

Lemma docx_line_stable (raw : str) :
  no_nl raw -> Forall stable (docx_line raw).
Proof.
  intros Hraw.
  destruct (docx_line_cases raw) as [E | (e & E & Hline)]; rewrite E.
  - constructor.
  - constructor; [|constructor]. split.
    + rewrite Hline; apply strip_Forall, Hraw.
    + rewrite Hline, docx_line_strip; exact E.
Qed.

Lemma docx_body_stable (content : str) : Forall stable (docx_body content).
Proof.
  unfold docx_body.
  pose proof (split_nl_no_nl content) as H.
  induction H as [|l ls Hl Hls IH]; simpl; [constructor|].
  apply Forall_app; split; [apply docx_line_stable, Hl | exact IH].
Qed.

Lemma reparse_lines (body : list docx_elem) :
  Forall stable body -> flat_map docx_line (map line_of body) = body.
Proof.
  induction 1 as [|e body [_ He] Hb IH]; simpl; [reflexivity|].
  rewrite He, IH; reflexivity.
Qed.

Lemma reparse_spaced_lines (body : list docx_elem) :
  Forall stable body -> flat_map docx_line (spaced_lines body) = body.
Proof.
  induction 1 as [|e body [_ He] Hb IH]; [reflexivity|].
  destruct body as [|e' body'].
  - simpl; rewrite He; reflexivity.
  - change (spaced_lines (e :: e' :: body'))
      with (line_of e :: [] :: spaced_lines (e' :: body')).
    cbn [flat_map]; rewrite He, docx_line_empty, IH; reflexivity.
Qed.

Lemma spaced_lines_no_nl (body : list docx_elem) :
  Forall stable body -> Forall no_nl (spaced_lines body).
Proof.
  induction 1 as [|e body [Hn _] Hb IH]; [constructor|].
  destruct body as [|e' body'].
  - repeat constructor; exact Hn.
  - change (spaced_lines (e :: e' :: body'))
      with (line_of e :: [] :: spaced_lines (e' :: body')).
    constructor; [exact Hn|]. constructor; [constructor | exact IH].
Qed.

Lemma spaced_lines_nil (body : list docx_elem) :
  spaced_lines body = [] -> body = [].
Proof. destruct body as [|e [|e' b]]; simpl; [reflexivity | discriminate..]. Qed.

(** Where no line is a level-4 heading the two passes show the same
    blocks. *)
Lemma line_parity (raw : str) :
  startswith (u "#### ") (strip raw) = false ->
  map docx_block (docx_line raw) = flat_map pdf_block (pdf_line raw).
Proof.
  intros H4; unfold docx_line, pdf_line.
  destruct (nonempty (strip raw)); cbn [negb andb]; [|reflexivity].
  destruct (startswith (u "# ") (strip raw)); [reflexivity|].
  destruct (startswith (u "## ") (strip raw)); [reflexivity|].
  destruct (startswith (u "### ") (strip raw)); [reflexivity|].
  rewrite H4.
  destruct (startswith (u "#") (strip raw)); reflexivity.
Qed.

Lemma parity_without_level4 (content : str) :
  Forall (fun raw => startswith (u "#### ") (strip raw) = false)
         (split_nl content) ->
  docx_blocks content = pdf_blocks content.
Proof.
  unfold docx_blocks, pdf_blocks, docx_body, pdf_story.
  induction 1 as [|raw ls Hraw Hls IH]; simpl; [reflexivity|].
  rewrite map_app, flat_map_app, IH, line_parity by exact Hraw; reflexivity.
Qed.

End RenderFacts.

Import RenderFacts.

(** ** Claims about the emission passes *)

(** C1. The claim: both emitters render the same block sequence, and a
    heading level one accepts the other accepts.  The code breaks it: on
    the content [#### X] the rich-text pass adds a level-4 heading and the
    printable pass adds nothing, because its loop has no branch for four
    hashes while the first loop has one. *)
Theorem C1_level4_heading_missing_in_pdf :
  docx_blocks (u "#### X") = [Heading 4 (u "X")] /\
  pdf_blocks (u "#### X") = [] /\
  docx_blocks (u "#### X") <> pdf_blocks (u "#### X").
Proof.
  split; [reflexivity|]. split; [reflexivity|].
  vm_compute; discriminate.
Qed.

(** C2, as stated, fails: the line made of four hashes and one space
    begins with the level-4 marker and yields no heading at all, since the
    line is stripped before it is matched. *)
Lemma C2_counterexample :
  ~ (forall raw : str,
       startswith (u "#### ") raw = true ->
       exists text centered, docx_line raw = [DocxHeading text 4 centered]).
Proof.
  intros H.
  destruct (H (u "#### ") eq_refl) as (text & centered & E).
  vm_compute in E; discriminate E.
Qed.

(** C2, amended. For every input line: if the stripped line begins with
    four hashes and a space, the rich-text pass adds a level-4 heading
    whose text is the stripped line after the marker; if the stripped line
    begins with a hash and with none of the four markers, neither pass adds
    anything for it, in particular no paragraph. *)
Theorem C2_heading_boundary (raw : str) :
  (startswith (u "#### ") (strip raw) = true ->
   docx_line raw = [DocxHeading (skipn 5 (strip raw)) 4 false]) /\
  (startswith (u "#") (strip raw) = true ->
   startswith (u "# ") (strip raw) = false ->
   startswith (u "## ") (strip raw) = false ->
   startswith (u "### ") (strip raw) = false ->
   startswith (u "#### ") (strip raw) = false ->
   docx_line raw = [] /\ pdf_line raw = []).
Proof.
  split.
  - intros H4. unfold docx_line. cbv zeta.
    remember (strip raw) as t eqn:Ht. clear Ht.
    pose proof (startswith_split _ _ H4) as Et.
    remember (skipn 5 t) as rest eqn:Hr.
    change (List.length (u "#### ")) with 5 in Et. rewrite <- Hr in Et.
    subst t. reflexivity.
  - intros H0 H1 H2 H3 H4. unfold docx_line, pdf_line.
    rewrite H0, H1, H2, H3, ?H4.
    remember (strip raw) as t eqn:Ht. clear Ht.
    destruct t as [|c t]; [discriminate H0 | split; reflexivity].
Qed.

Lemma C2_heading_boundary_witness :
  docx_line (u "#### X") = [DocxHeading (u "X") 4 false] /\
  docx_line (u "##### X") = [] /\ pdf_line (u "##### X") = [].
Proof.
  split.
  - exact (proj1 (C2_heading_boundary (u "#### X")) eq_refl).
  - exact (proj2 (C2_heading_boundary (u "##### X"))
             eq_refl eq_refl eq_refl eq_refl eq_refl).
Defined.

(** C10. Reading the text rebuilt from the blocks of a content (markers
    put back, one block per line, with or without an empty line between
    blocks) gives the blocks of the content again. *)
Theorem C10_reparse_idempotent (content : str) :
  docx_body (reconstruct (docx_body content)) = docx_body content /\
  docx_body (reconstruct_spaced (docx_body content)) = docx_body content.
Proof.
  pose proof (docx_body_stable content) as Hst.
  destruct (docx_body content) as [|e body] eqn:E; [split; reflexivity|].
  rewrite <- E in *. split.
  - unfold reconstruct. unfold docx_body at 1.
    rewrite split_join.
    + apply reparse_lines, Hst.
    + rewrite E; discriminate.
    + apply Forall_map. eapply Forall_impl; [|exact Hst].
      intros a [Ha _]; exact Ha.
  - unfold reconstruct_spaced. unfold docx_body at 1.
    rewrite split_join.
    + apply reparse_spaced_lines, Hst.
    + intros Hnil. apply spaced_lines_nil in Hnil. rewrite E in Hnil.
      discriminate.
    + apply spaced_lines_no_nl, Hst.
Qed.

(** ** File names *)

Module NameFacts.

Lemma replace_char (a b : char) (s : str) :
  replace [a] [b] s = map (fun c => if (a =? c)%N then b else c) s.
Proof.
  unfold replace; induction s as [|c s IH]; [reflexivity|].
  cbn [replace_from startswith List.length Nat.sub map].
  rewrite andb_true_r.
  destruct (a =? c)%N; cbn [app]; rewrite IH; reflexivity.
Qed.

Lemma Forall_firstn {A} (P : A -> Prop) (n : nat) (l : list A) :
  Forall P l -> Forall P (firstn n l).
Proof.
  intros H; revert n; induction H as [|x l Hx Hl IH]; intros [|n]; simpl;
    constructor; auto.
Qed.

Lemma safe_topic_allowed (tbl : char -> bool) (topic : str) :
  Forall (allowed tbl) (safe_topic tbl topic).
Proof.
  unfold safe_topic. apply Forall_firstn.
  rewrite replace_char. apply Forall_map, Forall_forall.
  intros c Hc. apply filter_In in Hc as [_ Hk].
  destruct (N.eqb_spec space c) as [_|Hsp]; [right; right; reflexivity|].
  unfold kept in Hk.
  apply orb_true_iff in Hk as [Hk|Hk]; [left; exact Hk|].
  apply orb_true_iff in Hk as [Hk|Hk].
  - apply orb_true_iff in Hk as [Hk|Hk]; apply N.eqb_eq in Hk.
    + congruence.
    + right; left; exact Hk.
  - apply N.eqb_eq in Hk. right; right; exact Hk.
Qed.

Lemma allowed_not (tbl : char -> bool) (c d : char) :
  (d <? 128)%N = true -> ascii_alnum d = false ->
  d <> hyphen -> d <> underscore -> allowed tbl c -> c <> d.
Proof.
  intros Hlt Hal Hh Hu [H|[H|H]] E; rewrite E in H.
  - unfold isalnum in H; rewrite Hlt, Hal in H; discriminate.
  - exact (Hh H).
  - exact (Hu H).
Qed.

Lemma uint_str_digits (d : Decimal.uint) : Forall digit (uint_str d).
Proof.
  induction d; simpl; constructor; try assumption; unfold digit; lia.
Qed.

Lemma zfill_digits (w : nat) (s : str) : Forall digit s -> Forall digit (zfill w s).
Proof.
  intros H; unfold zfill; apply Forall_app; split; [|exact H].
  induction (w - List.length s) as [|n IH]; simpl; constructor; auto.
  unfold digit; lia.
Qed.

Lemma strftime_chars (t : datetime) :
  Forall (fun c => digit c \/ c = underscore) (strftime t).
Proof.
  assert (D : forall w n, Forall (fun c => digit c \/ c = underscore)
                            (zfill w (str_of_nat n))).
  { intros w n. eapply Forall_impl; [|apply zfill_digits, uint_str_digits].
    intros c Hc; left; exact Hc. }
  unfold strftime.
  repeat (apply Forall_app; split; [apply D|]).
  constructor; [right; reflexivity|].
  repeat (apply Forall_app; split; [apply D|]). apply D.
Qed.

(** No dot in the common name of the two files. *)
Lemma base_name_no_dot (tbl : char -> bool) (topic : str) (t : datetime) :
  ~ In dot (base_name tbl topic t).
Proof.
  unfold base_name. intros H.
  apply in_app_or in H as [H|H].
  { vm_compute in H. repeat (destruct H as [H|H]; [discriminate H|]). exact H. }
  apply in_app_or in H as [H|H].
  { pose proof (safe_topic_allowed tbl topic) as Ha.
    rewrite Forall_forall in Ha. specialize (Ha _ H).
    revert Ha. intros Ha.
    eapply (allowed_not tbl dot dot); try exact Ha; try reflexivity;
      discriminate. }
  destruct H as [H|H]; [discriminate H|].
  pose proof (strftime_chars t) as Hs. rewrite Forall_forall in Hs.
  destruct (Hs _ H) as [Hd|Hd]; [|discriminate Hd].
  unfold digit, dot in Hd; lia.
Qed.

Lemma replace_from_short (old new : str) (s : str) (k : nat) :
  List.length s <= k -> replace_from old new k s = [].
Proof.
  revert k; induction s as [|c s IH]; intros k Hk; [reflexivity|].
  destruct k as [|k]; simpl in Hk; [lia|].
  simpl. apply IH. lia.
Qed.

Lemma startswith_cut (old a b : str) (c : char) :
  ~ In c old ->
  startswith old (a ++ c :: b) = startswith old a.
Proof.
  revert a; induction old as [|o old IH]; intros a Hc; [destruct a; reflexivity|].
  destruct a as [|x a]; simpl.
  - destruct (N.eqb_spec o c) as [->|_]; [|reflexivity].
    exfalso; apply Hc; left; reflexivity.
  - rewrite IH; [reflexivity|]. intros H; apply Hc; right; exact H.
Qed.

Lemma startswith_length (p s : str) :
  startswith p s = true -> List.length p <= List.length s.
Proof.
  revert s; induction p as [|a p IH]; intros [|b s] H; simpl in *;
    try lia; try discriminate.
  apply andb_true_iff in H as [_ H]. apply IH in H. lia.
Qed.

(** An occurrence of [old] never spans a character that [old] does not
    contain, so [replace] works on the two sides of it separately. *)
Lemma replace_from_cut (old new a b : str) (c : char) :
  old <> [] -> ~ In c old ->
  forall k, k <= List.length a ->
  replace_from old new k (a ++ c :: b)
  = replace_from old new k a ++ c :: replace_from old new 0 b.
Proof.
  intros Hne Hc. induction a as [|x a IH]; intros k Hk.
  - simpl in Hk. assert (k = 0) by lia; subst k.
    cbn [app replace_from].
    pose proof (startswith_cut old [] b c Hc) as E. cbn [app] in E.
    rewrite E. destruct old; [contradiction | reflexivity].
  - destruct k as [|k].
    + cbn [app replace_from].
      pose proof (startswith_cut old (x :: a) b c Hc) as E. cbn [app] in E.
      rewrite E. destruct (startswith old (x :: a)) eqn:Es.
      * apply startswith_length in Es. simpl in Es.
        rewrite IH by lia. rewrite app_assoc. reflexivity.
      * rewrite IH by lia. reflexivity.
    + cbn [app replace_from]. apply IH. simpl in Hk; lia.
Qed.

Lemma replace_suffix (o : char) (old new stem : str) :
  ~ In o stem ->
  replace (o :: old) new (stem ++ o :: old) = stem ++ new.
Proof.
  intros Hs. unfold replace. induction stem as [|x stem IH].
  - cbn [app replace_from].
    pose proof (startswith_app (o :: old) []) as E.
    rewrite app_nil_r in E. rewrite E.
    rewrite replace_from_short; [apply app_nil_r | simpl; lia].
  - cbn [app replace_from startswith].
    destruct (N.eqb_spec o x) as [->|Hox].
    + exfalso; apply Hs; left; reflexivity.
    + cbn [andb]. rewrite IH; [reflexivity|].
      intros H; apply Hs; right; exact H.
Qed.

Lemma doc_dir_shape (cwd : str) : exists pre, doc_dir cwd = pre ++ u "doc".
Proof.
  unfold doc_dir, path_join. cbn [startswith u list_ascii_of_string map].
  change (startswith [slash] (N_of_ascii "d" :: N_of_ascii "o" :: N_of_ascii "c" :: nil))
    with false.
  cbv iota.
  destruct (negb (nonempty cwd) || endswith [slash] cwd).
  - exists cwd; reflexivity.
  - exists (cwd ++ [slash]). rewrite <- app_assoc. reflexivity.
Qed.

Lemma path_join_doc_dir (cwd name : str) :
  startswith [slash] name = false ->
  path_join (doc_dir cwd) name = doc_dir cwd ++ slash :: name.
Proof.
  intros Hn. destruct (doc_dir_shape cwd) as [pre E]. rewrite E.
  unfold path_join. rewrite Hn.
  assert (Hne : nonempty (pre ++ u "doc") = true) by (destruct pre; reflexivity).
  assert (Hend : endswith [slash] (pre ++ u "doc") = false).
  { unfold endswith. rewrite rev_app_distr. reflexivity. }
  rewrite Hne, Hend. reflexivity.
Qed.

Lemma document_path_shape (tbl : char -> bool) (cwd topic : str) (t : datetime) :
  document_path_of tbl cwd topic t
  = doc_dir cwd ++ slash :: base_name tbl topic t ++ u ".docx".
Proof.
  unfold document_path_of. rewrite path_join_doc_dir by reflexivity.
  unfold filename, base_name.
  rewrite <- !app_assoc. cbn [app]. rewrite <- ?app_assoc. cbn [app].
  reflexivity.
Qed.

Lemma pdf_path_shape (tbl : char -> bool) (cwd topic : str) (t : datetime) :
  pdf_path_of (document_path_of tbl cwd topic t)
  = replace (u ".docx") (u ".pdf") (doc_dir cwd)
    ++ slash :: base_name tbl topic t ++ u ".pdf".
Proof.
  rewrite document_path_shape. unfold pdf_path_of, replace.
  rewrite replace_from_cut.
  - f_equal. f_equal.
    apply (replace_suffix dot (u "docx") (u ".pdf")).
    apply base_name_no_dot.
  - discriminate.
  - vm_compute. intros H.
    repeat (destruct H as [H|H]; [discriminate H|]). exact H.
  - lia.
Qed.

End NameFacts.

Import NameFacts.

(** ** The timestamp *)

Module ClockFacts.










End ClockFacts.

Import ClockFacts.



(** ** Runs of the program *)

Module AgentFacts.

Lemma str_eqb_refl (s : str) : str_eqb s s = true.
Proof. unfold str_eqb. destruct (list_eq_dec N.eq_dec s s); congruence. Qed.

Lemma contains_app (needle a b : str) :
  contains needle (a ++ needle ++ b) = true.
Proof.
  induction a as [|c a IH].
  - cbn [app]. destruct (needle ++ b) eqn:E; cbn [contains];
      rewrite <- E, startswith_app; reflexivity.
  - cbn [app contains]. rewrite IH. apply orb_true_r.
Qed.

Lemma flat_map_none {A B} (f : A -> list B) (l : list A) :
  Forall (fun a => f a = []) l -> flat_map f l = [].
Proof. induction 1 as [|a l Ha Hl IH]; simpl; [|rewrite Ha, IH]; reflexivity. Qed.

Section Runs.

Variable R : Runtime.

(** The research call always returns, with one event. *)
Lemma research_returns (topic : str) (w : World R) :
  exists data w1,
    research_with_tavily R topic w
    = (Ret data, w1, [EvTavily (tavily_query topic) (u "advanced") 6]).
Proof.
  unfold research_with_tavily, try_except, bind, call, ret.
  destruct (tavily_search R (tavily_query topic) (u "advanced") 6 w)
    as [[hits|e] w1]; eexists; eexists; reflexivity.
Qed.

Lemma research_falls_back (topic : str) (w w1 : World R) (e : exn) :
  tavily_search R (tavily_query topic) (u "advanced") 6 w = (Raise e, w1) ->
  research_with_tavily R topic w
  = (Ret (research_fallback e), w1,
     [EvTavily (tavily_query topic) (u "advanced") 6]).
Proof.
  intros H. unfold research_with_tavily, try_except, bind, call, ret.
  rewrite H. reflexivity.
Qed.

(** [create_documents] always returns, and only touches the file system. *)
Lemma create_documents_returns (content topic : str) (w : World R) :
  exists docs w1 l,
    create_documents R content topic w = (Ret docs, w1, l) /\
    Forall (fun ev => is_render ev = true) l.
Proof.
  unfold create_documents, emit_docx, emit_pdf, try_except, bind, call,
    read, ret.
  destruct (makedirs R (doc_dir (getcwd R w)) w) as [[[]|e] w1].
  2:{ do 3 eexists; split; [reflexivity | repeat constructor]. }
  destruct (docx_save R _ (docx_body content) w1) as [[[]|e] w2].
  2:{ do 3 eexists; split; [reflexivity | repeat constructor]. }
  destruct (pdf_build R _ (pdf_story content) w2) as [[[]|e] w3];
    do 3 eexists; (split; [reflexivity | repeat constructor]).
Qed.

Lemma primary_failure (content topic : str) (w w1 : World R) (e : exn)
    (l : list event) :
  emit_docx R content topic w = (Raise e, w1, l) ->
  create_documents R content topic w
  = (Ret {| res_document_path := u "Document creation failed: " ++ e;
            res_pdf_path := u "PDF creation failed: " ++ e |}, w1, l).
Proof.
  intros H. unfold create_documents, try_except, bind at 1.
  rewrite H. unfold ret. rewrite app_nil_r. reflexivity.
Qed.

Lemma secondary_failure (content topic path : str) (w w1 w2 : World R)
    (e : exn) (l1 l2 : list event) :
  emit_docx R content topic w = (Ret path, w1, l1) ->
  emit_pdf R content (pdf_path_of path) w1 = (Raise e, w2, l2) ->
  create_documents R content topic w
  = (Ret {| res_document_path := path;
            res_pdf_path := u "PDF creation failed: " ++ e |}, w2, l1 ++ l2).
Proof.
  intros H1 H2. unfold create_documents, try_except, bind.
  rewrite H1, H2. unfold ret. rewrite !app_nil_r. reflexivity.
Qed.

Lemma both_succeed (content topic path : str) (w w1 w2 : World R)
    (l1 l2 : list event) :
  emit_docx R content topic w = (Ret path, w1, l1) ->
  emit_pdf R content (pdf_path_of path) w1 = (Ret tt, w2, l2) ->
  create_documents R content topic w
  = (Ret {| res_document_path := path;
            res_pdf_path := pdf_path_of path |}, w2, l1 ++ l2).
Proof.
  intros H1 H2. unfold create_documents, try_except, bind.
  rewrite H1, H2. unfold ret. rewrite !app_nil_r. reflexivity.
Qed.

(** The path the first pass returns is the derived one. *)
Lemma emit_docx_path (content topic path : str) (w w1 : World R)
    (l : list event) :
  emit_docx R content topic w = (Ret path, w1, l) ->
  exists t, path = document_path_of (unicode_alnum R) (getcwd R w) topic t.
Proof.
  unfold emit_docx, bind, call, read, ret.
  destruct (makedirs R (doc_dir (getcwd R w)) w) as [[[]|e] w2];
    [|discriminate].
  destruct (docx_save R _ (docx_body content) w2) as [[[]|e] w3];
    [|discriminate].
  intros H. injection H as <- _ _. eexists; reflexivity.
Qed.

(** The engine on the workflow: the three nodes, one after the other. *)
Lemma app_invoke_eq (st : ResearchState) :
  app_invoke R st =
  (call (EvState st) (fun w => (Ret tt, w)) ;;;
   node_step research (_research_node R)
     (node_step write (_write_node R)
        (node_step create_docs (_create_docs_node R) (fun s => ret s))) st).
Proof. reflexivity. Qed.

Ltac run_pipeline :=
  unfold create_research_paper; rewrite app_invoke_eq;
  cbv [node_step bind try_except call print ret _research_node _write_node
       _create_docs_node initial_state Effects.topic research_data
       paper_content messages document_path pdf_path step].

Lemma run_failed (topic data : str) (w w1 w2 : World R) (e : exn)
    (l1 : list event) :
  research_with_tavily R topic w = (Ret data, w1, l1) ->
  llm_invoke R (writing_prompt topic data) w1 = (Raise e, w2) ->
  create_research_paper R topic w
  = (Ret (failed_result topic e), w2, log_failed topic data e l1).
Proof.
  intros H1 H2. run_pipeline.
  rewrite H1. cbv beta iota. rewrite H2. cbv beta iota.
  unfold log_failed, log_until_write.
  rewrite <- ?app_assoc. reflexivity.
Qed.

Lemma run_completed (topic data text : str) (w w1 w2 w3 : World R)
    (docs : doc_results) (l1 l3 : list event) :
  research_with_tavily R topic w = (Ret data, w1, l1) ->
  llm_invoke R (writing_prompt topic data) w1 = (Ret text, w2) ->
  create_documents R text topic w2 = (Ret docs, w3, l3) ->
  create_research_paper R topic w
  = (Ret (completed_result topic text docs), w3,
     log_completed topic data text docs l1 l3).
Proof.
  intros H1 H2 H3. run_pipeline.
  rewrite H1. cbv beta iota. rewrite H2. cbv beta iota.
  rewrite H3. cbv beta iota.
  rewrite str_eqb_refl.
  unfold log_completed, log_until_write, completed_result, after_docs.
  rewrite <- ?app_assoc. reflexivity.
Qed.

Lemma render_no_marker (l : list event) :
  Forall (fun ev => is_render ev = true) l ->
  flat_map marker_of l = [] /\ flat_map node_of l = [] /\
  Forall (fun ev => is_llm ev = false) l.
Proof.
  intros H. repeat split.
  - apply flat_map_none. eapply Forall_impl; [|exact H].
    intros [] E; try discriminate E; reflexivity.
  - apply flat_map_none. eapply Forall_impl; [|exact H].
    intros [] E; try discriminate E; reflexivity.
  - eapply Forall_impl; [|exact H].
    intros [] E; try discriminate E; reflexivity.
Qed.

Lemma trace_completed (topic data text : str) (docs : doc_results)
    (l1 l3 : list event) :
  flat_map marker_of l1 = [] -> flat_map node_of l1 = [] ->
  flat_map marker_of l3 = [] -> flat_map node_of l3 = [] ->
  flat_map marker_of (log_completed topic data text docs l1 l3)
  = [Start; Researched; Written; Rendered] /\
  nodes_run (log_completed topic data text docs l1 l3)
  = [research; write; create_docs].
Proof.
  intros M1 N1 M3 N3. unfold nodes_run, log_completed, log_until_write.
  rewrite !flat_map_app, M1, N1, M3, N3. split; reflexivity.
Qed.

Lemma trace_failed (topic data : str) (e : exn) (l1 : list event) :
  flat_map marker_of l1 = [] -> flat_map node_of l1 = [] ->
  flat_map marker_of (log_failed topic data e l1) = [Start; Researched] /\
  nodes_run (log_failed topic data e l1) = [research; write].
Proof.
  intros M1 N1. unfold nodes_run, log_failed, log_until_write.
  rewrite !flat_map_app, M1, N1. split; reflexivity.
Qed.

End Runs.

End AgentFacts.

Import AgentFacts.

(** ** Claims about failures *)

(** C3, as stated, fails: when saving the Word document raises, the run is
    still reported as completed. *)
Lemma C3_counterexample :
  ~ (forall (R : Runtime) (topic data text : str) (w w1 w2 w3 : World R)
            (e : exn) (l1 l3 : list event),
       research_with_tavily R topic w = (Ret data, w1, l1) ->
       llm_invoke R (writing_prompt topic data) w1 = (Ret text, w2) ->
       emit_docx R text topic w2 = (Raise e, w3, l3) ->
       exists r, result_of (create_research_paper R topic w) = Ret r /\
                 r_status r = u "failed").
Proof.
  intros H.
  destruct (H (Demo.runtime Demo.docx_down) Demo.topic0 _ _ [] _ _ _ _ _ _
              eq_refl eq_refl eq_refl) as (r & Hr & Hs).
  vm_compute in Hr. injection Hr as <-. vm_compute in Hs. discriminate Hs.
Qed.

(** C3, amended. If the rich-text emitter fails with [e], the render
    returns error descriptors in both artifact fields, and the run carries
    them in its result, whose status is [completed]. *)
Theorem C3_primary_failure (R : Runtime) (topic data text : str)
    (w w1 w2 w3 : World R) (e : exn) (l1 l3 : list event) :
  research_with_tavily R topic w = (Ret data, w1, l1) ->
  llm_invoke R (writing_prompt topic data) w1 = (Ret text, w2) ->
  emit_docx R text topic w2 = (Raise e, w3, l3) ->
  create_documents R text topic w2
  = (Ret {| res_document_path := u "Document creation failed: " ++ e;
            res_pdf_path := u "PDF creation failed: " ++ e |}, w3, l3) /\
  exists r,
    result_of (create_research_paper R topic w) = Ret r /\
    r_document_path r = Some (u "Document creation failed: " ++ e) /\
    r_pdf_path r = Some (u "PDF creation failed: " ++ e) /\
    r_status r = u "completed".
Proof.
  intros H1 H2 H3.
  pose proof (primary_failure R _ _ _ _ _ _ H3) as Hd.
  split; [exact Hd|].
  rewrite (run_completed R _ _ _ _ _ _ _ _ _ _ H1 H2 Hd).
  eexists; split; [reflexivity|]. repeat split.
Qed.

Lemma C3_primary_failure_witness :
  exists r,
    result_of (create_research_paper (Demo.runtime Demo.docx_down)
                 Demo.topic0 []) = Ret r /\
    r_document_path r = Some (u "Document creation failed: disk full") /\
    r_pdf_path r = Some (u "PDF creation failed: disk full") /\
    r_status r = u "completed".
Proof.
  exact (proj2 (C3_primary_failure (Demo.runtime Demo.docx_down) Demo.topic0
                  _ _ [] _ _ _ (u "disk full") _ _ eq_refl eq_refl eq_refl)).
Defined.

(** C4, as stated, fails: the fallback text need not contain the topic. *)
Lemma C4_counterexample :
  ~ (forall (R : Runtime) (topic : str) (w w1 : World R) (e : exn),
       tavily_search R (tavily_query topic) (u "advanced") 6 w = (Raise e, w1) ->
       exists data w2 l,
         research_with_tavily R topic w = (Ret data, w2, l) /\
         data <> [] /\ contains topic data = true).
Proof.
  intros H.
  destruct (H (Demo.runtime Demo.tavily_down) Demo.topic0 [] _ _ eq_refl)
    as (data & w2 & l & Hr & _ & Hc).
  vm_compute in Hr. injection Hr as <- _ _. vm_compute in Hc. discriminate Hc.
Qed.

(** C4, amended. For every topic, when the search call raises [e], the
    research step returns the text [Research failed: e. Using AI knowledge
    instead.], which is not empty and contains the error message; nothing
    is raised; and if the model then answers, the run goes through all
    stages and is reported as completed. *)
Theorem C4_research_degrades (R : Runtime) (topic : str) (w w1 : World R)
    (e : exn) :
  tavily_search R (tavily_query topic) (u "advanced") 6 w = (Raise e, w1) ->
  (result_of (research_with_tavily R topic w) = Ret (research_fallback e) /\
   research_fallback e <> [] /\
   contains e (research_fallback e) = true) /\
  forall (text : str) (w2 : World R),
    llm_invoke R (writing_prompt topic (research_fallback e)) w1
    = (Ret text, w2) ->
    stage_trace (create_research_paper R topic w)
    = [Start; Researched; Written; Rendered] /\
    exists r,
      result_of (create_research_paper R topic w) = Ret r /\
      r_paper_content r = Some text /\
      r_status r = u "completed".
Proof.
  intros Ht. pose proof (research_falls_back R _ _ _ _ Ht) as H1.
  split.
  - rewrite H1. split; [reflexivity|]. split.
    + discriminate.
    + apply contains_app.
  - intros text w2 H2.
    destruct (create_documents_returns R text topic w2)
      as (docs & w3 & l3 & H3 & Hl3).
    rewrite (run_completed R _ _ _ _ _ _ _ _ _ _ H1 H2 H3).
    apply render_no_marker in Hl3 as (M3 & N3 & _).
    split.
    + unfold stage_trace. cbn [log_of result_of fst snd].
      rewrite (proj1 (trace_completed topic _ text docs
                        [EvTavily (tavily_query topic) (u "advanced") 6] l3
                        eq_refl eq_refl M3 N3)).
      reflexivity.
    + eexists; split; [reflexivity|]. split; reflexivity.
Qed.

Lemma C4_research_degrades_witness :
  result_of (research_with_tavily (Demo.runtime Demo.tavily_down)
               Demo.topic0 [])
  = Ret (u "Research failed: timeout. Using AI knowledge instead.") /\
  stage_trace (create_research_paper (Demo.runtime Demo.tavily_down)
                 Demo.topic0 [])
  = [Start; Researched; Written; Rendered].
Proof.
  pose proof (C4_research_degrades (Demo.runtime Demo.tavily_down)
                Demo.topic0 [] [] (u "timeout") eq_refl) as [[H _] K].
  split; [exact H|].
  exact (proj1 (K Demo.paper [] eq_refl)).
Defined.

(** C5, as stated, fails: the write stage does not catch the failure of
    its model call; the exception leaves [_write_node] as it was raised. *)
Lemma C5_counterexample :
  ~ (forall (R : Runtime) (state : ResearchState) (w w1 : World R) (e : exn),
       llm_invoke R (writing_prompt (topic state) (research_data state)) w
       = (Raise e, w1) ->
       exists state', result_of (_write_node R state w) = Ret state').
Proof.
  intros H.
  destruct (H (Demo.runtime Demo.llm_down) (initial_state Demo.topic0)
              [] [] _ eq_refl) as (state' & E).
  vm_compute in E. discriminate E.
Qed.

(** C5, amended. If the model call of the write stage raises [e], the
    failure is not caught at the boundary of the stage: [_write_node]
    raises [e] and so does the workflow run.  It is caught by the handler
    around the workflow run in [create_research_paper]: the run stops (the
    document stage is not started, nothing is rendered, the world is as
    the failed call left it), the result has status [failed] and carries
    the message, and [create_research_paper] returns rather than
    raises. *)
Theorem C5_generation_failure (R : Runtime) (topic data : str)
    (w w1 w2 : World R) (e : exn) (l1 : list event) :
  research_with_tavily R topic w = (Ret data, w1, l1) ->
  llm_invoke R (writing_prompt topic data) w1 = (Raise e, w2) ->
  result_of (_write_node R (after_research topic data) w1) = Raise e /\
  result_of (app_invoke R (initial_state topic) w) = Raise e /\
  (exists r,
     result_of (create_research_paper R topic w) = Ret r /\
     r_status r = u "failed" /\ r_error r = Some e) /\
  world_of (create_research_paper R topic w) = w2 /\
  nodes_run (log_of (create_research_paper R topic w)) = [research; write] /\
  Forall (fun ev => is_render ev = false)
         (log_of (create_research_paper R topic w)) /\
  stage_trace (create_research_paper R topic w) = [Start; Researched; Failed].
Proof.
  intros H1 H2.
  split.
  { unfold _write_node, bind, call, print, after_research.
    cbn [Effects.topic research_data]. rewrite H2. reflexivity. }
  split.
  { rewrite app_invoke_eq.
    cbv [node_step bind call print ret _research_node _write_node
         initial_state Effects.topic research_data].
    rewrite H1. cbv beta iota. rewrite H2. reflexivity. }
  rewrite (run_failed R _ _ _ _ _ _ _ H1 H2).
  destruct (research_returns R topic w) as (d & wr & Hr).
  rewrite H1 in Hr. injection Hr as _ _ ->.
  cbn [result_of world_of log_of fst snd].
  split; [eexists; split; [reflexivity | split; reflexivity]|].
  split; [reflexivity|].
  split; [apply trace_failed; reflexivity|].
  split; [repeat constructor|].
  unfold stage_trace. cbn [result_of log_of fst snd].
  rewrite (proj1 (trace_failed topic data e
                    [EvTavily (tavily_query topic) (u "advanced") 6]
                    eq_refl eq_refl)).
  reflexivity.
Qed.

Lemma C5_generation_failure_witness :
  result_of (app_invoke (Demo.runtime Demo.llm_down)
               (initial_state Demo.topic0) [])
  = Raise (u "quota exceeded") /\
  exists r,
    result_of (create_research_paper (Demo.runtime Demo.llm_down)
                 Demo.topic0 []) = Ret r /\
    r_status r = u "failed" /\ r_error r = Some (u "quota exceeded").
Proof.
  pose proof (C5_generation_failure (Demo.runtime Demo.llm_down)
                Demo.topic0 _ [] _ _ _ _ eq_refl eq_refl)
    as (_ & Ha & Hr & _).
  split; [exact Ha | exact Hr].
Defined.

(** C6. If the printable emitter fails with [e] after the rich-text
    emitter has succeeded, the result keeps the path of the Word file (the
    derived file name under the [doc] directory), its PDF field is the text
    [PDF creation failed: e], and the run is reported as completed. *)
Theorem C6_secondary_failure (R : Runtime) (topic data text path : str)
    (w w1 w2 w3 w4 : World R) (e : exn) (l1 l3 l4 : list event) :
  research_with_tavily R topic w = (Ret data, w1, l1) ->
  llm_invoke R (writing_prompt topic data) w1 = (Ret text, w2) ->
  emit_docx R text topic w2 = (Ret path, w3, l3) ->
  emit_pdf R text (pdf_path_of path) w3 = (Raise e, w4, l4) ->
  (exists r,
     result_of (create_research_paper R topic w) = Ret r /\
     r_document_path r = Some path /\
     r_pdf_path r = Some (u "PDF creation failed: " ++ e) /\
     r_status r = u "completed") /\
  exists t,
    path = doc_dir (getcwd R w2)
           ++ slash :: base_name (unicode_alnum R) topic t ++ u ".docx".
Proof.
  intros H1 H2 H3 H4.
  pose proof (secondary_failure R _ _ _ _ _ _ _ _ _ H3 H4) as Hd.
  rewrite (run_completed R _ _ _ _ _ _ _ _ _ _ H1 H2 Hd).
  split.
  - eexists; split; [reflexivity|]. repeat split.
  - destruct (emit_docx_path R _ _ _ _ _ _ H3) as [t ->].
    exists t. apply document_path_shape.
Qed.

Lemma C6_secondary_failure_witness :
  exists r,
    result_of (create_research_paper (Demo.runtime Demo.pdf_down)
                 Demo.topic0 []) = Ret r /\
    r_document_path r
    = Some (u "/home/user/doc/research_paper_graph_coloring_20240307_090500.docx") /\
    r_pdf_path r = Some (u "PDF creation failed: bad markup") /\
    r_status r = u "completed".
Proof.
  exact (proj1 (C6_secondary_failure (Demo.runtime Demo.pdf_down) Demo.topic0
                  _ _ _ [] _ _ _ _ (u "bad markup") _ _ _
                  eq_refl eq_refl eq_refl eq_refl)).
Defined.

(** ** Claims about revision and stage order *)

(** C7, as stated, fails: [edit_paper] has no check on the change request
    and calls the model also when the request is empty. *)
Lemma C7_counterexample :
  ~ (forall (R : Runtime) (current_content topic : str) (w : World R),
       Forall (fun ev => is_service ev = false)
              (log_of (edit_paper R current_content [] topic w))).
Proof.
  intros H.
  specialize (H (Demo.runtime Demo.all_fine) Demo.paper Demo.topic0 []).
  vm_compute in H. inversion H as [|ev l Hev Hl]. discriminate Hev.
Qed.

(** C7, amended. The check is in the revision loop of [main]: for every
    held result, when the user answers [y] and then types a change request
    that is empty after stripping, the pass prints its refusal, calls
    neither the model nor the renderer, keeps the held result and goes on
    asking.  [edit_paper] itself, given an empty change request, starts by
    calling the model with the editing prompt. *)
Theorem C7_empty_request_rejected_in_loop (R : Runtime)
    (current_result : paper_result) (w w1 w2 : World R)
    (answer typed : str) :
  console_input R ask_changes w = (Ret answer, w1) ->
  strip (str_lower R answer) = u "y" ->
  console_input R ask_description w1 = (Ret typed, w2) ->
  strip typed = [] ->
  edit_round R current_result w
  = (Ret (Continue, current_result), w2,
     [ EvPrint (nl :: rule 50); EvInput ask_changes;
       EvInput ask_description; EvPrint say_invalid_request ]) /\
  forall (current_content topic : str) (w' : World R),
  exists rest,
    log_of (edit_paper R current_content [] topic w')
    = EvLlm (editing_prompt current_content []) :: rest.
Proof.
  intros H1 H2 H3 H4. split.
  - unfold edit_round, bind, input, call, print, ret.
    rewrite H1. cbv beta iota zeta. rewrite H2, str_eqb_refl.
    rewrite H3. cbv beta iota zeta. rewrite H4. reflexivity.
  - intros current_content topic w'.
    unfold edit_paper, bind, call.
    destruct (llm_invoke R (editing_prompt current_content []) w')
      as [[text|e] w'1].
    + destruct (create_documents R text topic w'1) as [[[docs|e] w'2] l].
      * eexists; reflexivity.
      * eexists; reflexivity.
    + eexists; reflexivity.
Qed.

Lemma C7_empty_request_rejected_in_loop_witness :
  edit_round (Demo.runtime Demo.all_fine)
    (completed_result Demo.topic0 Demo.paper
       {| res_document_path := u "a.docx"; res_pdf_path := u "a.pdf" |})
    [u "Y "; u "   "; u "n"]
  = (Ret (Continue,
          completed_result Demo.topic0 Demo.paper
            {| res_document_path := u "a.docx"; res_pdf_path := u "a.pdf" |}),
     [u "n"],
     [ EvPrint (nl :: rule 50); EvInput ask_changes;
       EvInput ask_description; EvPrint say_invalid_request ]).
Proof.
  exact (proj1 (C7_empty_request_rejected_in_loop (Demo.runtime Demo.all_fine)
                  _ [u "Y "; u "   "; u "n"] _ _ _ _
                  eq_refl eq_refl eq_refl eq_refl)).
Defined.

(** C8. In every run of [create_research_paper] the stage marker starts at
    [Start] and only moves forward, one stage at a time or into [Failed],
    after which nothing follows.  Either the three nodes run once each, in
    the order research, write, create_docs, the markers are Start,
    Researched, Written, Rendered and the run is reported completed; or the
    write node raises, the markers are Start, Researched, then Failed, the
    document node is not started and the run is reported failed. *)
Theorem C8_stage_order (R : Runtime) (topic : str) (w : World R) :
  forward_chain (stage_trace (create_research_paper R topic w)) = true /\
  hd_error (stage_trace (create_research_paper R topic w)) = Some Start /\
  ((stage_trace (create_research_paper R topic w)
    = [Start; Researched; Written; Rendered] /\
    nodes_run (log_of (create_research_paper R topic w))
    = [research; write; create_docs] /\
    exists r, result_of (create_research_paper R topic w) = Ret r /\
              r_status r = u "completed")
   \/
   (stage_trace (create_research_paper R topic w)
    = [Start; Researched; Failed] /\
    nodes_run (log_of (create_research_paper R topic w))
    = [research; write] /\
    exists r, result_of (create_research_paper R topic w) = Ret r /\
              r_status r = u "failed")).
Proof.
  destruct (research_returns R topic w) as (data & w1 & H1).
  destruct (llm_invoke R (writing_prompt topic data) w1) as [[text|e] w2] eqn:H2.
  - destruct (create_documents_returns R text topic w2)
      as (docs & w3 & l3 & H3 & Hl3).
    apply render_no_marker in Hl3 as (M3 & N3 & _).
    rewrite (run_completed R _ _ _ _ _ _ _ _ _ _ H1 H2 H3).
    destruct (trace_completed topic data text docs
                [EvTavily (tavily_query topic) (u "advanced") 6] l3
                eq_refl eq_refl M3 N3) as [Tm Tn].
    assert (T : stage_trace
                  (Ret (completed_result topic text docs), w3,
                   log_completed topic data text docs
                     [EvTavily (tavily_query topic) (u "advanced") 6] l3)
                = [Start; Researched; Written; Rendered]).
    { unfold stage_trace. cbn [log_of result_of fst snd].
      rewrite Tm. reflexivity. }
    rewrite T. split; [reflexivity|]. split; [reflexivity|].
    left. split; [reflexivity|]. split; [exact Tn|].
    eexists; split; reflexivity.
  - rewrite (run_failed R _ _ _ _ _ _ _ H1 H2).
    destruct (trace_failed topic data e
                [EvTavily (tavily_query topic) (u "advanced") 6]
                eq_refl eq_refl) as [Tm Tn].
    assert (T : stage_trace
                  (Ret (failed_result topic e), w2,
                   log_failed topic data e
                     [EvTavily (tavily_query topic) (u "advanced") 6])
                = [Start; Researched; Failed]).
    { unfold stage_trace. cbn [log_of result_of fst snd].
      rewrite Tm. reflexivity. }
    rewrite T. split; [reflexivity|]. split; [reflexivity|].
    right. split; [reflexivity|]. split; [exact Tn|].
    eexists; split; reflexivity.
Qed.

(** * Further properties of the program *)

(** ** The emission passes *)

Module RenderMore.

Lemma strip_last (s a : str) (c : char) :
  strip s = a ++ [c] -> isspace c = false.
Proof.
  unfold strip, rstrip. intros H.
  apply (f_equal (@rev char)) in H.
  rewrite rev_involutive, rev_app_distr in H. cbn [rev app] in H.
  eapply lstrip_head; exact H.
Qed.

Lemma lstrip_snoc_space (l : str) (c : char) :
  isspace c = true ->
  lstrip (l ++ [c]) = match lstrip l with [] => [] | _ :: _ => lstrip l ++ [c] end.
Proof.
  intros Hc. induction l as [|a l IH]; cbn [app lstrip].
  - rewrite Hc. reflexivity.
  - destruct (isspace a); [exact IH | reflexivity].
Qed.

Lemma rstrip_snoc_space (l : str) (c : char) :
  isspace c = true -> rstrip (l ++ [c]) = rstrip l.
Proof.
  intros Hc. unfold rstrip. rewrite rev_app_distr. cbn [rev app lstrip].
  rewrite Hc. reflexivity.
Qed.

(** White space after a line does not count. *)
Lemma strip_snoc_space (l : str) (c : char) :
  isspace c = true -> strip (l ++ [c]) = strip l.
Proof.
  intros Hc. unfold strip. rewrite lstrip_snoc_space by exact Hc.
  destruct (lstrip l) as [|x t] eqn:E; [reflexivity|].
  apply rstrip_snoc_space, Hc.
Qed.

Lemma split_nl_app (a b : str) :
  split_nl (a ++ nl :: b) = split_nl a ++ split_nl b.
Proof.
  induction a as [|c a IH]; [reflexivity|].
  cbn [app split_nl]. rewrite IH.
  destruct (c =? nl)%N; [reflexivity|].
  pose proof (split_nl_nonempty a) as Hne.
  destruct (split_nl a) as [|l ls]; [contradiction | reflexivity].
Qed.

Lemma pdf_line_strip (raw : str) : pdf_line (strip raw) = pdf_line raw.
Proof. unfold pdf_line; rewrite strip_idem; reflexivity. Qed.

Lemma line_same_or_cr (l l' : str) :
  same_or_cr l l' -> docx_line l = docx_line l' /\ pdf_line l = pdf_line l'.
Proof.
  intros [->| ->]; [split; reflexivity|].
  unfold docx_line, pdf_line.
  rewrite strip_snoc_space by reflexivity. split; reflexivity.
Qed.

Lemma replace_char_by (a : char) (new s : str) :
  replace [a] new s = flat_map (fun c => if (a =? c)%N then new else [c]) s.
Proof.
  unfold replace; induction s as [|c s IH]; [reflexivity|].
  cbn [replace_from startswith List.length Nat.sub flat_map].
  rewrite andb_true_r.
  destruct (a =? c)%N; cbn [app]; rewrite IH; reflexivity.
Qed.

Lemma split_crlf (s : str) :
  Forall2 same_or_cr (split_nl (to_crlf s)) (split_nl s).
Proof.
  unfold to_crlf. rewrite replace_char_by.
  induction s as [|c s IH].
  - repeat constructor.
  - cbn [flat_map split_nl].
    destruct (N.eqb_spec nl c) as [<-|Hc].
    + cbn [app split_nl]. change (cr =? nl)%N with false.
      rewrite N.eqb_refl. cbv iota.
      constructor; [right; reflexivity | exact IH].
    + cbn [app split_nl].
      assert (Hc' : (c =? nl)%N = false) by (apply N.eqb_neq; congruence).
      rewrite Hc'. revert IH.
      match goal with
      | |- context [split_nl (flat_map ?f s)] =>
          destruct (split_nl (flat_map f s)) as [|l ls]
      end;
        destruct (split_nl s) as [|l0 ls0]; intros IH;
        inversion IH as [|? ? ? ? Hl Hls]; subst.
      * repeat constructor.
      * constructor; [|exact Hls].
        destruct Hl as [->| ->]; [left | right]; reflexivity.
Qed.

Lemma suffix_good (raw pre rest : str) :
  no_nl raw -> strip raw = pre ++ space :: rest -> good_text rest.
Proof.
  intros Hraw E.
  assert (Hn : no_nl (strip raw)) by (apply strip_Forall, Hraw).
  rewrite E in Hn. apply Forall_app in Hn as [_ Hn].
  inversion Hn as [|? ? _ Hrest]; subst.
  split; [|split; [exact Hrest|]].
  - intros ->. apply (strip_last raw pre space) in E. discriminate E.
  - intros a c ->.
    apply (strip_last raw (pre ++ space :: a) c).
    rewrite E, <- app_assoc. reflexivity.
Qed.

Lemma para_good (raw : str) :
  no_nl raw -> nonempty (strip raw) = true -> good_text (strip raw).
Proof.
  intros Hraw Hne. split; [|split].
  - intros E; rewrite E in Hne; discriminate Hne.
  - apply strip_Forall, Hraw.
  - intros a c E. eapply strip_last; exact E.
Qed.

Lemma heading_good (raw pre rest : str) (l : nat) :
  no_nl raw -> strip raw = pre ++ space :: rest -> 1 <= l <= 4 ->
  Forall good_docx [DocxHeading rest l (Nat.eqb l 1)].
Proof.
  intros Hraw E Hl. constructor; [|constructor].
  split; [exact (suffix_good raw pre rest Hraw E)|]. split; [exact Hl | reflexivity].
Qed.

Lemma docx_line_good (raw : str) : no_nl raw -> Forall good_docx (docx_line raw).
Proof.
  intros Hraw. unfold docx_line.
  destruct (nonempty (strip raw)) eqn:Hne; cbn [negb andb]; [|constructor].
  destruct (startswith (u "# ") (strip raw)) eqn:H1.
  { apply (heading_good raw [hash] _ 1 Hraw); [|lia].
    exact (startswith_split _ _ H1). }
  destruct (startswith (u "## ") (strip raw)) eqn:H2.
  { apply (heading_good raw [hash; hash] _ 2 Hraw); [|lia].
    exact (startswith_split _ _ H2). }
  destruct (startswith (u "### ") (strip raw)) eqn:H3.
  { apply (heading_good raw [hash; hash; hash] _ 3 Hraw); [|lia].
    exact (startswith_split _ _ H3). }
  destruct (startswith (u "#### ") (strip raw)) eqn:H4.
  { apply (heading_good raw [hash; hash; hash; hash] _ 4 Hraw); [|lia].
    exact (startswith_split _ _ H4). }
  destruct (startswith (u "#") (strip raw)) eqn:H0; cbn [negb]; constructor;
    [|constructor].
  split; [apply para_good; assumption|].
  split; [apply strip_idem | exact H0].
Qed.

Lemma title_good (raw pre rest : str) (st : pdf_style) :
  no_nl raw -> strip raw = pre ++ space :: rest ->
  Forall good_flowable [Paragraph rest st].
Proof.
  intros Hraw E. constructor; [|constructor].
  exact (suffix_good raw pre rest Hraw E).
Qed.

Lemma pdf_line_good (raw : str) : no_nl raw -> Forall good_flowable (pdf_line raw).
Proof.
  intros Hraw. unfold pdf_line.
  destruct (nonempty (strip raw)) eqn:Hne; cbn [negb andb].
  2:{ constructor; [|constructor]. split; [reflexivity | right; reflexivity]. }
  destruct (startswith (u "# ") (strip raw)) eqn:H1.
  { apply (title_good raw [hash] _ _ Hraw).
    exact (startswith_split _ _ H1). }
  destruct (startswith (u "## ") (strip raw)) eqn:H2.
  { apply (title_good raw [hash; hash] _ _ Hraw).
    exact (startswith_split _ _ H2). }
  destruct (startswith (u "### ") (strip raw)) eqn:H3.
  { apply (title_good raw [hash; hash; hash] _ _ Hraw).
    exact (startswith_split _ _ H3). }
  destruct (startswith (u "#") (strip raw)) eqn:H0; cbn [negb]; constructor.
  - apply para_good; assumption.
  - constructor; [|constructor]. split; [reflexivity | left; reflexivity].
Qed.

Lemma line_blocks (raw : str) :
  flat_map pdf_block (pdf_line raw)
  = filter (fun b => negb (is_level4 b)) (map docx_block (docx_line raw)).
Proof.
  unfold docx_line, pdf_line.
  destruct (nonempty (strip raw)); cbn [negb andb]; [|reflexivity].
  destruct (startswith (u "# ") (strip raw)); [reflexivity|].
  destruct (startswith (u "## ") (strip raw)); [reflexivity|].
  destruct (startswith (u "### ") (strip raw)); [reflexivity|].
  destruct (startswith (u "#### ") (strip raw)) eqn:H4.
  - assert (H0 : startswith (u "#") (strip raw) = true).
    { rewrite (startswith_split _ _ H4). reflexivity. }
    rewrite H0. reflexivity.
  - destruct (startswith (u "#") (strip raw)); reflexivity.
Qed.

End RenderMore.

Import RenderMore.

(** X1. For every content, the blocks of the PDF are the blocks of the
    Word document with the level-4 headings taken out, in the same
    order. *)
Theorem X1_pdf_blocks_are_docx_blocks_without_level4 (content : str) :
  pdf_blocks content
  = filter (fun b => negb (is_level4 b)) (docx_blocks content).
Proof.
  unfold pdf_blocks, docx_blocks, pdf_story, docx_body.
  induction (split_nl content) as [|raw ls IH]; [reflexivity|].
  cbn [flat_map]. rewrite flat_map_app, map_app, filter_app, IH, line_blocks.
  reflexivity.
Qed.

(** X2. Whatever the content, no empty text reaches a document: every
    heading and paragraph of the Word body, and every paragraph of the PDF
    story, has a text that is not empty, holds no line break and does not
    end in white space; heading levels are 1 to 4 and only level 1 is
    centred; a body paragraph is a stripped line that does not begin with a
    hash; spacers are 6 or 12 points high. *)
Theorem X2_emitted_elements_well_formed (content : str) :
  Forall good_docx (docx_body content) /\
  Forall good_flowable (pdf_story content).
Proof.
  unfold docx_body, pdf_story.
  pose proof (split_nl_no_nl content) as H.
  induction H as [|l ls Hl Hls [IH1 IH2]]; [split; constructor|].
  cbn [flat_map]. split; apply Forall_app; split;
    auto using docx_line_good, pdf_line_good.
Qed.

(** X3. The passes work line by line: the output for two contents joined
    by a line feed is the output for the first followed by the output for
    the second. *)
Theorem X3_passes_compose_over_lines (a b : str) :
  docx_body (a ++ nl :: b) = docx_body a ++ docx_body b /\
  pdf_story (a ++ nl :: b) = pdf_story a ++ pdf_story b.
Proof.
  unfold docx_body, pdf_story.
  rewrite split_nl_app, !flat_map_app. split; reflexivity.
Qed.

(** X4. Line endings do not matter: a content with carriage return and
    line feed at the end of its lines gives the same Word body and the same
    PDF story as the content with line feeds alone. *)
Theorem X4_crlf_content_renders_alike (content : str) :
  docx_body (to_crlf content) = docx_body content /\
  pdf_story (to_crlf content) = pdf_story content.
Proof.
  unfold docx_body, pdf_story.
  pose proof (split_crlf content) as H.
  induction H as [|l l' ls ls' Hl Hls [IH1 IH2]]; [split; reflexivity|].
  cbn [flat_map]. destruct (line_same_or_cr l l' Hl) as [E1 E2].
  rewrite E1, E2, IH1, IH2. split; reflexivity.
Qed.

(** ** File names *)

Module NameMore.

Lemma replace_absent (old new s : str) :
  contains old s = false -> replace old new s = s.
Proof.
  unfold replace. induction s as [|c s IH]; intros H; [reflexivity|].
  cbn [contains] in H. apply orb_false_iff in H as [Hs Hc].
  cbn [replace_from]. rewrite Hs, IH by exact Hc. reflexivity.
Qed.

Lemma replace_from_length (old new : str) :
  List.length new <= List.length old ->
  forall (s : str) (k : nat),
    k <= List.length s ->
    List.length (replace_from old new k s) + k <= List.length s.
Proof.
  intros Hlen. induction s as [|c s IH]; intros k Hk.
  - simpl in *. lia.
  - destruct k as [|k]; cbn [replace_from].
    + destruct (startswith old (c :: s)) eqn:Es.
      * apply startswith_length in Es. cbn [List.length] in *.
        rewrite length_app.
        specialize (IH (List.length old - 1)). lia.
      * cbn [List.length]. specialize (IH 0). lia.
    + cbn [List.length] in *. specialize (IH k). lia.
Qed.

Lemma replace_shrinks (old new : str) :
  List.length new < List.length old ->
  forall s : str,
    contains old s = true ->
    List.length (replace old new s) < List.length s.
Proof.
  intros Hlen. unfold replace. induction s as [|c s IH]; intros H.
  - cbn [contains] in H. rewrite orb_false_r in H.
    apply startswith_length in H. simpl in H. lia.
  - cbn [replace_from]. destruct (startswith old (c :: s)) eqn:Es.
    + apply startswith_length in Es. cbn [List.length] in *.
      rewrite length_app.
      pose proof (replace_from_length old new (Nat.lt_le_incl _ _ Hlen) s
                    (List.length old - 1)) as L.
      lia.
    + cbn [contains] in H. rewrite Es in H. cbn [orb] in H.
      cbn [List.length]. specialize (IH H). lia.
Qed.

Lemma kept_underscored (tbl : char -> bool) (s : str) :
  filter (kept tbl) (underscored s) = underscored (filter (kept tbl) s).
Proof.
  unfold underscored. induction s as [|c s IH]; [reflexivity|].
  cbn [map filter].
  destruct (N.eqb_spec space c) as [<-|Hc].
  - assert (K1 : kept tbl underscore = true).
    { unfold kept. rewrite orb_true_iff. right. reflexivity. }
    assert (K2 : kept tbl space = true).
    { unfold kept. rewrite orb_true_iff. right. reflexivity. }
    rewrite K1, K2. cbn [map]. rewrite IH. reflexivity.
  - destruct (kept tbl c); cbn [map]; rewrite IH; [|reflexivity].
    apply N.eqb_neq in Hc. rewrite Hc. reflexivity.
Qed.

Lemma underscored_idem (s : str) : underscored (underscored s) = underscored s.
Proof.
  unfold underscored. rewrite map_map. apply map_ext. intros c.
  destruct (N.eqb_spec space c) as [<-|Hc]; [reflexivity|].
  apply N.eqb_neq in Hc. rewrite Hc. reflexivity.
Qed.

Lemma safe_topic_eq (tbl : char -> bool) (topic : str) :
  safe_topic tbl topic = firstn 30 (underscored (filter (kept tbl) topic)).
Proof. unfold safe_topic. rewrite replace_char. reflexivity. Qed.

Lemma filter_idem {A} (f : A -> bool) (l : list A) :
  filter f (filter f l) = filter f l.
Proof.
  induction l as [|a l IH]; [reflexivity|].
  cbn [filter]. destruct (f a) eqn:E; [|exact IH].
  cbn [filter]. rewrite E, IH. reflexivity.
Qed.

End NameMore.

Import NameMore.

(** X5. The PDF is written beside the Word file, under the same name with
    [.pdf], exactly when the path of the [doc] directory holds no [.docx]:
    the extension is changed by a replacement over the whole path. *)
Theorem X5_pdf_beside_docx_iff (tbl : char -> bool) (cwd topic : str)
    (t : datetime) :
  pdf_path_of (document_path_of tbl cwd topic t)
  = doc_dir cwd ++ slash :: base_name tbl topic t ++ u ".pdf"
  <-> contains (u ".docx") (doc_dir cwd) = false.
Proof.
  rewrite pdf_path_shape. split.
  - intros E. apply app_inv_tail in E.
    destruct (contains (u ".docx") (doc_dir cwd)) eqn:C; [|reflexivity].
    exfalso.
    assert (L : List.length (u ".pdf") < List.length (u ".docx"))
      by (cbn; lia).
    pose proof (replace_shrinks (u ".docx") (u ".pdf") L _ C) as S.
    rewrite E in S. lia.
  - intros C. rewrite replace_absent by exact C. reflexivity.
Qed.

(** X6. Different topics can get the same file name.  What follows the
    first 30 kept characters of a topic is ignored; characters that are not
    kept are ignored; spaces and underscores are not told apart. *)
Theorem X6_file_name_collisions (tbl : char -> bool) (topic more : str)
    (t : datetime) :
  (30 <= List.length (filter (kept tbl) topic) ->
   filename tbl (topic ++ more) t = filename tbl topic t) /\
  filename tbl (filter (kept tbl) topic) t = filename tbl topic t /\
  filename tbl (underscored topic) t = filename tbl topic t.
Proof.
  unfold filename. rewrite !safe_topic_eq. repeat split.
  - intros H. rewrite filter_app. unfold underscored. rewrite map_app.
    rewrite firstn_app.
    replace (30 - List.length (map _ (filter (kept tbl) topic))) with 0
      by (rewrite length_map; lia).
    cbn [firstn]. rewrite app_nil_r. reflexivity.
  - rewrite filter_idem. reflexivity.
  - rewrite kept_underscored, underscored_idem. reflexivity.
Qed.

Lemma X6_file_name_collisions_witness :
  filename (fun _ => false)
    (u "A survey of graph colouring heuristics" ++ u " for sparse graphs")
    Demo.clock
  = filename (fun _ => false) (u "A survey of graph colouring heuristics")
      Demo.clock.
Proof.
  apply (proj1 (X6_file_name_collisions (fun _ => false)
                  (u "A survey of graph colouring heuristics")
                  (u " for sparse graphs") Demo.clock)).
  vm_compute. lia.
Defined.

(** X7. The sanitised topic has as many characters as the topic has kept
    ones, up to 30.  A topic without any kept character, the empty topic
    among them, gives the file name [research_paper__] followed by the
    timestamp and [.docx]. *)
Theorem X7_safe_topic_length_and_empty (tbl : char -> bool) (topic : str)
    (t : datetime) :
  List.length (safe_topic tbl topic)
  = Nat.min 30 (List.length (filter (kept tbl) topic)) /\
  (filter (kept tbl) topic = [] ->
   filename tbl topic t = u "research_paper__" ++ strftime t ++ u ".docx").
Proof.
  split.
  - rewrite safe_topic_eq, length_firstn. unfold underscored.
    rewrite length_map. reflexivity.
  - intros E. unfold filename. rewrite safe_topic_eq, E. reflexivity.
Qed.

Lemma X7_safe_topic_length_and_empty_witness :
  filename (fun _ => false) (u "?!") Demo.clock
  = u "research_paper__20240307_090500.docx".
Proof.
  exact (proj2 (X7_safe_topic_length_and_empty (fun _ => false) (u "?!")
                  Demo.clock) eq_refl).
Defined.

(** ** Research and rendering *)

Module RunMore.

Lemma contains_here (x b : str) : contains x (x ++ b) = true.
Proof.
  destruct (x ++ b) eqn:E; cbn [contains]; rewrite <- E, startswith_app;
    reflexivity.
Qed.

Lemma contains_self (x : str) : contains x x = true.
Proof.
  pose proof (contains_here x []) as H. rewrite app_nil_r in H. exact H.
Qed.

Lemma contains_cons (x b : str) (c : char) :
  contains x b = true -> contains x (c :: b) = true.
Proof. intros H. cbn [contains]. rewrite H. apply orb_true_r. Qed.

Lemma contains_app_r (x a b : str) :
  contains x b = true -> contains x (a ++ b) = true.
Proof.
  intros H. induction a as [|c a IH]; [exact H|].
  cbn [app]. apply contains_cons, IH.
Qed.

Lemma contains_app_l (x a b : str) :
  contains x a = true -> contains x (a ++ b) = true.
Proof.
  induction a as [|c a IH]; intros H.
  - cbn [contains] in H. rewrite orb_false_r in H.
    destruct x; [|discriminate H]. destruct ([] ++ b); reflexivity.
  - cbn [contains] in H. apply orb_true_iff in H as [H|H].
    + pose proof (startswith_app_r x (c :: a) b H) as E.
      cbn [app] in E. cbn [app contains]. rewrite E. reflexivity.
    + cbn [app]. apply contains_cons, IH, H.
Qed.

Lemma format_hits_nth (hits : list search_hit) :
  forall (first i : nat) (h : search_hit),
    nth_error hits i = Some h ->
    exists a b, format_hits first hits = a ++ format_hit (first + i) h ++ b.
Proof.
  induction hits as [|h0 hits IH]; intros first i h H.
  - destruct i; discriminate H.
  - destruct i as [|i]; cbn [nth_error] in H.
    + injection H as ->. exists [], (format_hits (S first) hits).
      rewrite Nat.add_0_r. reflexivity.
    + destruct (IH (S first) i h H) as (a & b & E).
      exists (format_hit first h0 ++ a), b.
      cbn [format_hits]. rewrite E, <- app_assoc.
      replace (first + S i) with (S first + i) by lia. reflexivity.
Qed.

Lemma render_calls (l : list event) :
  Forall (fun ev => is_render ev = true) l -> service_calls l = l.
Proof.
  unfold service_calls. induction 1 as [|ev l Hev Hl IH]; [reflexivity|].
  cbn [filter]. rewrite IH.
  destruct ev; try discriminate Hev; reflexivity.
Qed.

Lemma prompt_has_topic (topic data : str) :
  contains topic (writing_prompt topic data) = true.
Proof.
  unfold writing_prompt. cbn [join_nl].
  apply contains_app_l, contains_app_r, contains_cons, contains_here.
Qed.

Lemma prompt_has_data (topic data : str) :
  contains data (writing_prompt topic data) = true.
Proof.
  unfold writing_prompt. cbn [join_nl].
  apply contains_app_r, contains_cons. cbn [app].
  apply contains_cons, contains_app_r, contains_cons, contains_here.
Qed.

End RunMore.

Import RunMore.

(** X8. [research_with_tavily] never raises.  It makes one search call,
    for the query built from the topic, with depth [advanced] and at most
    6 results.  If the search answers with hits, it returns the formatted
    results for exactly these hits; if the search raises [e], it returns
    the fallback note for [e].  In both cases the text is not empty and the
    world is as the search left it. *)
Theorem X8_research_never_raises (R : Runtime) (topic : str) (w : World R) :
  contains topic (tavily_query topic) = true /\
  match tavily_search R (tavily_query topic) (u "advanced") 6 w with
  | (Ret hits, w1) =>
      research_with_tavily R topic w
      = (Ret (formatted_results topic hits), w1,
         [EvTavily (tavily_query topic) (u "advanced") 6]) /\
      formatted_results topic hits <> []
  | (Raise e, w1) =>
      research_with_tavily R topic w
      = (Ret (research_fallback e), w1,
         [EvTavily (tavily_query topic) (u "advanced") 6]) /\
      research_fallback e <> []
  end.
Proof.
  split; [apply contains_app_r, contains_here|].
  unfold research_with_tavily, try_except, bind, call, ret.
  destruct (tavily_search R (tavily_query topic) (u "advanced") 6 w)
    as [[hits|e] w1]; (split; [reflexivity | discriminate]).
Qed.

(** X9. The formatted results begin with the header naming the topic; with
    no hit they are the header alone; the hit at position [i] (from 0)
    appears as entry number [i + 1], with its title, at most the first 600
    characters of its content, and its source. *)
Theorem X9_formatted_results_entries (topic : str) (hits : list search_hit) :
  startswith (u "Research Results for '" ++ topic ++ u "':" ++ [nl; nl])
             (formatted_results topic hits) = true /\
  formatted_results topic []
  = u "Research Results for '" ++ topic ++ u "':" ++ [nl; nl] /\
  forall (i : nat) (h : search_hit),
    nth_error hits i = Some h ->
    contains
      (str_of_nat (S i) ++ u ". **" ++ title h ++ u "**" ++ [nl]
       ++ u "   Content: " ++ firstn 600 (content h) ++ u "..." ++ [nl]
       ++ u "   Source: " ++ url h ++ [nl; nl])
      (formatted_results topic hits) = true.
Proof.
  split; [|split].
  - unfold formatted_results.
    rewrite !app_assoc. apply startswith_app.
  - unfold formatted_results. cbn [format_hits].
    rewrite app_nil_r. reflexivity.
  - intros i h H.
    destruct (format_hits_nth hits 1 i h H) as (a & b & E).
    unfold formatted_results. rewrite E.
    do 5 apply contains_app_r. apply contains_app_l.
    cbn [Nat.add]. unfold format_hit.
    rewrite <- !app_assoc. apply contains_self.
Qed.

Lemma X9_formatted_results_entries_witness :
  contains
    (u "1. **Four colours**" ++ [nl]
     ++ u "   Content: Every planar map..." ++ [nl]
     ++ u "   Source: http://example.org/4" ++ [nl; nl])
    (formatted_results Demo.topic0 Demo.hits) = true.
Proof.
  exact (proj2 (proj2 (X9_formatted_results_entries Demo.topic0 Demo.hits))
           0 _ eq_refl).
Defined.

(** X10. [create_documents] never raises and touches only the file
    system.  It first creates the [doc] directory.  If that raises [e], or
    if saving the Word document raises [e], both fields of the result are
    the error texts for [e] and no PDF is built.  Otherwise the PDF is
    built once, from the same content, at the path derived from the Word
    path; the result holds the Word path, and the PDF path if the build
    returned or the error text for [e] if it raised [e]. *)
Theorem X10_create_documents_calls (R : Runtime) (content topic : str)
    (w : World R) :
  let dir := doc_dir (getcwd R w) in
  let failed e :=
    {| res_document_path := u "Document creation failed: " ++ e;
       res_pdf_path := u "PDF creation failed: " ++ e |} in
  match makedirs R dir w with
  | (Raise e, w1) =>
      create_documents R content topic w
      = (Ret (failed e), w1, [EvMakedirs dir])
  | (Ret _, w1) =>
      let path :=
        document_path_of (unicode_alnum R) (getcwd R w) topic (now R w1) in
      match docx_save R path (docx_body content) w1 with
      | (Raise e, w2) =>
          create_documents R content topic w
          = (Ret (failed e), w2,
             [EvMakedirs dir; EvDocx path (docx_body content)])
      | (Ret _, w2) =>
          match pdf_build R (pdf_path_of path) (pdf_story content) w2 with
          | (Ret _, w3) =>
              create_documents R content topic w
              = (Ret {| res_document_path := path;
                        res_pdf_path := pdf_path_of path |}, w3,
                 [EvMakedirs dir; EvDocx path (docx_body content);
                  EvPdf (pdf_path_of path) (pdf_story content)])
          | (Raise e, w3) =>
              create_documents R content topic w
              = (Ret {| res_document_path := path;
                        res_pdf_path := u "PDF creation failed: " ++ e |}, w3,
                 [EvMakedirs dir; EvDocx path (docx_body content);
                  EvPdf (pdf_path_of path) (pdf_story content)])
          end
      end
  end.
Proof.
  intros dir failed. subst dir failed.
  unfold create_documents, emit_docx, emit_pdf, try_except, bind, call,
    read, ret.
  destruct (makedirs R (doc_dir (getcwd R w)) w) as [[[]|e] w1];
    [|reflexivity].
  cbv zeta.
  destruct (docx_save R _ (docx_body content) w1) as [[[]|e] w2];
    [|reflexivity].
  destruct (pdf_build R _ (pdf_story content) w2) as [[[]|e] w3];
    reflexivity.
Qed.

(** ** Runs, revision and [main] *)

Module MainMore.

Section Facts.

Variable R : Runtime.

Lemma research_returns_text (topic : str) (w : World R) :
  exists data w1,
    research_with_tavily R topic w
    = (Ret data, w1, [EvTavily (tavily_query topic) (u "advanced") 6]) /\
    data <> [].
Proof.
  unfold research_with_tavily, try_except, bind, call, ret.
  destruct (tavily_search R (tavily_query topic) (u "advanced") 6 w)
    as [[hits|e] w1]; eexists; eexists; (split; [reflexivity | discriminate]).
Qed.

(** A handler that always returns makes the whole [try] return. *)
Lemma try_except_returns {A} (m : M R A) (h : exn -> M R A) :
  (forall e w, exists v w1 l, h e w = (Ret v, w1, l)) ->
  forall w, exists v w1 l, try_except m h w = (Ret v, w1, l).
Proof.
  intros Hh w. unfold try_except.
  destruct (m w) as [[[a|e] w1] l1].
  - do 3 eexists; reflexivity.
  - destruct (Hh e w1) as (v & w2 & l2 & E). rewrite E.
    do 3 eexists; reflexivity.
Qed.

Lemma main_try_returns (rounds : nat) (topic : str) (w : World R) :
  exists v w1 l, main_try R rounds topic w = (Ret v, w1, l).
Proof.
  unfold main_try. apply try_except_returns.
  intros e w0. do 3 eexists. reflexivity.
Qed.

(** [main] is its opening, the construction of the agent, and [main_try]
    on the stripped answer. *)
Lemma main_eq (rounds : nat) (w : World R) :
  main R rounds w
  = match console_input R ask_topic w with
    | (Ret typed, w1) =>
        match llm_client R w1 with
        | (Ret _, w2) =>
            match main_try R rounds (strip typed) w2 with
            | (r, w3, l) => (r, w3, main_opening ++ client_built :: l)
            end
        | (Raise e, w2) => (Raise e, w2, main_opening ++ [client_built])
        end
    | (Raise e, w1) => (Raise e, w1, main_opening)
    end.
Proof.
  unfold main. unfold bind at 1 2 3 4. unfold print at 1 2.
  unfold input, __init__, call, ask_topic.
  destruct (console_input R (nl :: u "Enter your research topic: ") w)
    as [[typed|e] w1]; [|reflexivity].
  destruct (llm_client R w1) as [[[]|e] w2]; [|reflexivity].
  fold (main_try R rounds (strip typed)).
  destruct (main_try R rounds (strip typed) w2) as [[r w3] l]. reflexivity.
Qed.

End Facts.

End MainMore.

Import MainMore.

(** X11. In every run of [create_research_paper] the search is called
    once, then the model once, with a prompt that contains the topic and
    the text the research step returned; after these only the file system
    is touched, and not at all when the model raised. *)
Theorem X11_run_calls_in_order (R : Runtime) (topic : str) (w : World R) :
  exists data rest,
    result_of (research_with_tavily R topic w) = Ret data /\
    service_calls (log_of (create_research_paper R topic w))
    = EvTavily (tavily_query topic) (u "advanced") 6
      :: EvLlm (writing_prompt topic data) :: rest /\
    Forall (fun ev => is_render ev = true) rest /\
    contains topic (writing_prompt topic data) = true /\
    contains data (writing_prompt topic data) = true /\
    (forall r, result_of (create_research_paper R topic w) = Ret r ->
               r_status r = u "failed" -> rest = []).
Proof.
  destruct (research_returns R topic w) as (data & w1 & H1).
  exists data.
  destruct (llm_invoke R (writing_prompt topic data) w1) as [[text|e] w2] eqn:H2.
  - destruct (create_documents_returns R text topic w2)
      as (docs & w3 & l3 & H3 & Hl3).
    exists l3.
    rewrite (run_completed R _ _ _ _ _ _ _ _ _ _ H1 H2 H3), H1.
    cbn [result_of log_of fst snd].
    split; [reflexivity|]. split.
    { unfold service_calls, log_completed, log_until_write.
      rewrite !filter_app. fold (service_calls l3).
      rewrite (render_calls l3 Hl3). cbn [filter is_service app].
      rewrite app_nil_r. reflexivity. }
    split; [exact Hl3|].
    split; [apply prompt_has_topic|]. split; [apply prompt_has_data|].
    intros r Hr Hs. injection Hr as <-. vm_compute in Hs. discriminate Hs.
  - exists [].
    rewrite (run_failed R _ _ _ _ _ _ _ H1 H2), H1.
    cbn [result_of log_of fst snd].
    split; [reflexivity|]. split; [reflexivity|].
    split; [constructor|].
    split; [apply prompt_has_topic|]. split; [apply prompt_has_data|].
    reflexivity.
Qed.

(** X12. [create_research_paper] never raises.  Its result names the topic
    it was given and has one of two shapes: status [completed] with the
    keys [document_path], [pdf_path] and [paper_content] present and no
    [error]; or status [failed] with [error] present and the three others
    absent.  The status [partial] never occurs. *)
Theorem X12_result_shape (R : Runtime) (topic : str) (w : World R) :
  exists r,
    result_of (create_research_paper R topic w) = Ret r /\
    r_topic r = topic /\
    r_status r <> u "partial" /\
    ((r_status r = u "completed" /\
      (exists d p c, r_document_path r = Some d /\ r_pdf_path r = Some p /\
                     r_paper_content r = Some c) /\
      r_error r = None)
     \/
     (r_status r = u "failed" /\
      r_document_path r = None /\ r_pdf_path r = None /\
      r_paper_content r = None /\
      exists e, r_error r = Some e)).
Proof.
  destruct (research_returns R topic w) as (data & w1 & H1).
  destruct (llm_invoke R (writing_prompt topic data) w1) as [[text|e] w2] eqn:H2.
  - destruct (create_documents_returns R text topic w2)
      as (docs & w3 & l3 & H3 & _).
    rewrite (run_completed R _ _ _ _ _ _ _ _ _ _ H1 H2 H3).
    eexists; split; [reflexivity|]. split; [reflexivity|].
    split; [discriminate|]. left.
    split; [reflexivity|]. split; [|reflexivity].
    do 3 eexists; repeat split.
  - rewrite (run_failed R _ _ _ _ _ _ _ H1 H2).
    eexists; split; [reflexivity|]. split; [reflexivity|].
    split; [discriminate|]. right.
    repeat split. eexists; reflexivity.
Qed.

(** X13. In the revision loop an answer other than [y] (after lower-casing
    and stripping) reaches no service: the pass keeps the held result,
    asks nothing more, ends the loop when the answer is [n] and otherwise
    prints a hint and goes on. *)
Theorem X13_round_without_change (R : Runtime) (current_result : paper_result)
    (w w1 : World R) (answer : str) :
  console_input R ask_changes w = (Ret answer, w1) ->
  str_eqb (strip (str_lower R answer)) (u "y") = false ->
  edit_round R current_result w
  = (Ret (if str_eqb (strip (str_lower R answer)) (u "n")
          then Break else Continue, current_result),
     w1,
     [ EvPrint (nl :: rule 50); EvInput ask_changes;
       EvPrint
         (if str_eqb (strip (str_lower R answer)) (u "n")
          then nl :: 0x2705%N
                 :: u " Research paper creation completed successfully!"
          else 0x274C%N :: u " Please enter 'y' for yes or 'n' for no.") ]).
Proof.
  intros H1 H2.
  unfold edit_round, bind, input, call, print, ret.
  rewrite H1. cbv beta iota zeta. rewrite H2.
  destruct (str_eqb (strip (str_lower R answer)) (u "n")); reflexivity.
Qed.

Lemma X13_round_without_change_witness :
  edit_round (Demo.runtime Demo.all_fine)
    (failed_result Demo.topic0 (u "x")) [u " N"; u "y"]
  = (Ret (Break, failed_result Demo.topic0 (u "x")), [u "y"],
     [ EvPrint (nl :: rule 50); EvInput ask_changes;
       EvPrint (nl :: 0x2705%N
                  :: u " Research paper creation completed successfully!") ]).
Proof.
  exact (X13_round_without_change (Demo.runtime Demo.all_fine)
           (failed_result Demo.topic0 (u "x")) [u " N"; u "y"] _ _
           eq_refl eq_refl).
Defined.

(** X14. When a change is asked for and the model call of the revision
    raises [e], the loop does not stop and nothing is lost: the pass
    prints the error, renders nothing, keeps the held result and goes on. *)
Theorem X14_round_model_failure (R : Runtime) (current_result : paper_result)
    (w w1 w2 w3 : World R) (answer typed : str) (e : exn) :
  console_input R ask_changes w = (Ret answer, w1) ->
  strip (str_lower R answer) = u "y" ->
  console_input R ask_description w1 = (Ret typed, w2) ->
  nonempty (strip typed) = true ->
  llm_invoke R
    (editing_prompt (get_or (r_paper_content current_result) [])
       (strip typed)) w2
  = (Raise e, w3) ->
  edit_round R current_result w
  = (Ret (Continue, current_result), w3,
     [ EvPrint (nl :: rule 50); EvInput ask_changes;
       EvInput ask_description;
       EvPrint (nl :: 0x1F504%N :: u " Applying changes: " ++ strip typed);
       EvLlm (editing_prompt (get_or (r_paper_content current_result) [])
                (strip typed));
       EvPrint (0x274C%N :: u " Edit error: " ++ e) ]).
Proof.
  intros H1 H2 H3 H4 H5.
  unfold edit_round, edit_paper, bind, try_except, input, call, print, ret.
  rewrite H1. cbv beta iota zeta. rewrite H2, str_eqb_refl.
  rewrite H3. cbv beta iota zeta. rewrite H4, H5. reflexivity.
Qed.

Lemma X14_round_model_failure_witness :
  result_of
    (edit_round (Demo.runtime Demo.llm_down)
       (completed_result Demo.topic0 Demo.paper
          {| res_document_path := u "a.docx"; res_pdf_path := u "a.pdf" |})
       [u "y"; u "shorter"])
  = Ret (Continue,
         completed_result Demo.topic0 Demo.paper
           {| res_document_path := u "a.docx"; res_pdf_path := u "a.pdf" |}).
Proof.
  exact (f_equal (fun x => fst (fst x))
           (X14_round_model_failure (Demo.runtime Demo.llm_down)
              (completed_result Demo.topic0 Demo.paper
                 {| res_document_path := u "a.docx";
                    res_pdf_path := u "a.pdf" |})
              [u "y"; u "shorter"] _ _ _ _ _ (u "quota exceeded")
              eq_refl eq_refl eq_refl eq_refl eq_refl)).
Defined.

(** X15. When a change is asked for and the model answers [text], the held
    result is replaced: same topic, [text] as content, the paths (or error
    texts) of a fresh render, status [completed], whether or not the render
    worked; the loop goes on. *)
Theorem X15_round_applies_change (R : Runtime) (current_result : paper_result)
    (w w1 w2 w3 : World R) (answer typed text : str) :
  console_input R ask_changes w = (Ret answer, w1) ->
  strip (str_lower R answer) = u "y" ->
  console_input R ask_description w1 = (Ret typed, w2) ->
  nonempty (strip typed) = true ->
  llm_invoke R
    (editing_prompt (get_or (r_paper_content current_result) [])
       (strip typed)) w2
  = (Ret text, w3) ->
  exists docs w4 l,
    create_documents R text (r_topic current_result) w3 = (Ret docs, w4, l) /\
    result_of (edit_round R current_result w)
    = Ret (Continue, completed_result (r_topic current_result) text docs) /\
    world_of (edit_round R current_result w) = w4.
Proof.
  intros H1 H2 H3 H4 H5.
  destruct (create_documents_returns R text (r_topic current_result) w3)
    as (docs & w4 & l & Hd & _).
  exists docs, w4, l. split; [exact Hd|].
  unfold edit_round, edit_paper, bind, try_except, input, call, print, ret.
  rewrite H1. cbv beta iota zeta. rewrite H2, str_eqb_refl.
  rewrite H3. cbv beta iota zeta. rewrite H4, H5. cbv beta iota zeta.
  rewrite Hd. cbv beta iota zeta. cbn [r_status].
  rewrite str_eqb_refl. split; reflexivity.
Qed.

Lemma X15_round_applies_change_witness :
  exists docs,
    result_of
      (edit_round (Demo.runtime Demo.docx_down)
         (failed_result Demo.topic0 (u "x")) [u "y"; u "shorter"])
    = Ret (Continue, completed_result Demo.topic0 Demo.paper docs).
Proof.
  destruct (X15_round_applies_change (Demo.runtime Demo.docx_down)
              (failed_result Demo.topic0 (u "x")) [u "y"; u "shorter"]
              _ _ _ _ _ Demo.paper eq_refl eq_refl eq_refl eq_refl eq_refl)
    as (docs & w4 & l & _ & H & _).
  exists docs. exact H.
Defined.

(** X16. [edit_paper] has no handler: it raises what the model call
    raises, before anything is rendered.  When the model answers, it never
    raises and returns the topic it was given, the answer as content and
    status [completed]. *)
Theorem X16_edit_paper_outcomes (R : Runtime)
    (current_content change_request topic : str) (w : World R) :
  match llm_invoke R (editing_prompt current_content change_request) w with
  | (Raise e, w1) =>
      edit_paper R current_content change_request topic w
      = (Raise e, w1, [EvLlm (editing_prompt current_content change_request)])
  | (Ret text, w1) =>
      exists docs,
        result_of (create_documents R text topic w1) = Ret docs /\
        result_of (edit_paper R current_content change_request topic w)
        = Ret (completed_result topic text docs)
  end.
Proof.
  unfold edit_paper, bind, call.
  destruct (llm_invoke R (editing_prompt current_content change_request) w)
    as [[text|e] w1]; [|reflexivity].
  destruct (create_documents_returns R text topic w1)
    as (docs & w2 & l & Hd & _).
  exists docs. rewrite Hd. split; reflexivity.
Qed.

(** X17. [main] can raise at two places only, both before its [try]: when
    the first question, for the topic, cannot be read, and when the agent
    cannot be constructed; then it has done nothing but print its banner,
    ask, and attempt the construction.  Once the agent is constructed,
    [main] never raises, whatever the services and the later answers
    do. *)
Theorem X17_main_raises_only_before_try (R : Runtime) (rounds : nat)
    (w : World R) :
  match console_input R ask_topic w with
  | (Raise e, w1) => main R rounds w = (Raise e, w1, main_opening)
  | (Ret typed, w1) =>
      match llm_client R w1 with
      | (Raise e, w2) =>
          main R rounds w = (Raise e, w2, main_opening ++ [client_built])
      | (Ret _, w2) => exists v, result_of (main R rounds w) = Ret v
      end
  end.
Proof.
  rewrite main_eq.
  destruct (console_input R ask_topic w) as [[typed|e] w1]; [|reflexivity].
  destruct (llm_client R w1) as [[[]|e] w2]; [|reflexivity].
  destruct (main_try_returns R rounds (strip typed) w2) as (v & w3 & l & E).
  rewrite E. exists v. reflexivity.
Qed.

(** X18. When the topic is read, the agent is constructed and the model
    call of the run raises [e], [main] prints the closing banner, the
    status in capitals and the message, and returns: no revision is offered
    and no further question is asked. *)
Theorem X18_main_after_failed_run (R : Runtime) (rounds : nat)
    (w w0 wa w1 w2 : World R) (typed data : str) (e : exn)
    (l1 : list event) :
  console_input R ask_topic w = (Ret typed, w0) ->
  llm_client R w0 = (Ret tt, wa) ->
  research_with_tavily R (strip typed) wa = (Ret data, w1, l1) ->
  llm_invoke R (writing_prompt (strip typed) data) w1 = (Raise e, w2) ->
  main R rounds w
  = (Ret (Some tt), w2,
     main_opening
     ++ [ client_built;
          EvPrint (nl :: 0x1F504%N :: u " Creating research paper on: "
                      ++ strip typed);
          EvPrint (0x1F50D%N :: u " Starting research and writing process...") ]
     ++ log_failed (strip typed) data e l1
     ++ main_failed_report e).
Proof.
  intros H0 Ha H1 H2. rewrite main_eq, H0, Ha.
  unfold main_try, try_except. unfold bind at 1 2 3. unfold print at 1 2.
  rewrite (run_failed R _ _ _ _ _ _ _ H1 H2).
  reflexivity.
Qed.

Lemma X18_main_after_failed_run_witness :
  result_of (main (Demo.runtime Demo.llm_down) 3 [u "graph coloring"; u "y"])
  = Ret (Some tt) /\
  world_of (main (Demo.runtime Demo.llm_down) 3 [u "graph coloring"; u "y"])
  = [u "y"].
Proof.
  pose proof (X18_main_after_failed_run (Demo.runtime Demo.llm_down) 3
                [u "graph coloring"; u "y"] _ _ _ _ _ _ _ _
                eq_refl eq_refl eq_refl eq_refl) as H.
  rewrite H. split; reflexivity.
Defined.

(** X19. Whatever state the workflow is started on, it can fail only
    through the model call of the write node: either it raises what that
    call raised, or it returns a state with the topic and the messages it
    was started on, a research text that is not empty, and the step
    [documents_complete].  The recursion limit of the engine is never
    reached. *)
Theorem X19_workflow_outcomes (R : Runtime) (st : ResearchState) (w : World R) :
  match result_of (app_invoke R st w) with
  | Ret st' =>
      topic st' = topic st /\ messages st' = messages st /\
      research_data st' <> [] /\
      step st' = u "documents_complete"
  | Raise e =>
      exists data w1 w2,
        result_of (research_with_tavily R (topic st) w) = Ret data /\
        llm_invoke R (writing_prompt (topic st) data) w1 = (Raise e, w2)
  end.
Proof.
  rewrite app_invoke_eq.
  destruct (research_returns_text R (topic st) w) as (data & w1 & H1 & Hne).
  cbv [node_step bind call print ret _research_node _write_node
       _create_docs_node].
  rewrite H1. cbv beta iota. cbn [topic research_data paper_content].
  destruct (llm_invoke R (writing_prompt (topic st) data) w1)
    as [[text|e] w2] eqn:H2; cbv beta iota.
  - cbn [topic research_data paper_content].
    destruct (create_documents_returns R text (topic st) w2)
      as (docs & w3 & l3 & H3 & _).
    rewrite H3. cbn [result_of fst].
    repeat split. exact Hne.
  - cbn [result_of fst]. exists data, w1, w2. split; [reflexivity | exact H2].
Qed.

(** X20. The Word body has one paragraph, and the PDF story one body
    paragraph, for each line of the content that is not blank and does not
    begin with a hash once stripped, and no other. *)
Theorem X20_paragraph_count (content : str) :
  List.length (filter is_paragraph (docx_body content))
  = List.length (filter is_text_line (split_nl content)) /\
  List.length (filter is_body_text (pdf_story content))
  = List.length (filter is_text_line (split_nl content)).
Proof.
  assert (L : forall raw,
             (filter is_paragraph (docx_line raw)
              = if is_text_line raw then [DocxParagraph (strip raw)] else []) /\
             (filter is_body_text (pdf_line raw)
              = if is_text_line raw then [Paragraph (strip raw) Normal] else [])).
  { intros raw. unfold docx_line, pdf_line, is_text_line.
    destruct (nonempty (strip raw)); cbn [negb andb]; [|split; reflexivity].
    destruct (startswith (u "# ") (strip raw)) eqn:H1.
    { rewrite (startswith_split _ _ H1). split; reflexivity. }
    destruct (startswith (u "## ") (strip raw)) eqn:H2.
    { rewrite (startswith_split _ _ H2). split; reflexivity. }
    destruct (startswith (u "### ") (strip raw)) eqn:H3.
    { rewrite (startswith_split _ _ H3). split; reflexivity. }
    destruct (startswith (u "#### ") (strip raw)) eqn:H4.
    { assert (H0 : startswith (u "#") (strip raw) = true).
      { rewrite (startswith_split _ _ H4). reflexivity. }
      change (u "#") with [hash] in *. rewrite H0. split; reflexivity. }
    change (u "#") with [hash].
    destruct (startswith [hash] (strip raw)); split; reflexivity. }
  unfold docx_body, pdf_story.
  induction (split_nl content) as [|raw ls [IH1 IH2]]; [split; reflexivity|].
  cbn [flat_map filter]. rewrite !filter_app, !length_app, IH1, IH2.
  destruct (L raw) as [E1 E2]. rewrite E1, E2.
  destruct (is_text_line raw); split; reflexivity.
Qed.
